(** * rsparam: the command line front end and the core it drives

    [rsparam/cli.py] is the command line tool of the package.  It parses
    its arguments with docopt into the module level dictionary [args],
    calls the library ([rsparam.get_params], [rsparam.find_duplicates],
    [rsparam.find], [rsparam.compare], ...) and prints tables.

    The development is organised as follows.
    - [Py]: the fragment of Python the file relies on: values, exceptions,
      argument binding at a call, [str], the stable [sorted].
    - [Rsparam]: the record model and the library operations.
    - [Re]: regular expressions as Python's [re] reads and applies
      them, the engine [Rsparam.find] is run with.
    - [Cli]: the functions of [cli.py], one definition per [def].
    - the theorems. *)

From Stdlib Require Import ZArith List String Ascii Bool Lia Permutation Sorted.
From Stdlib Require Import DecimalString.
From Stdlib Require OrderedTypeEx.
Import ListNotations.
Local Open Scope list_scope.
Local Open Scope string_scope.

(* ===================================================================== *)
(** * Python *)
(* ===================================================================== *)

Module Py.

(** Outcome of a computation that may raise. *)
Inductive result (E A : Type) : Type :=
| Returns (a : A)
| Raises (e : E).
Arguments Returns {E A} a.
Arguments Raises {E A} e.

Definition bind {E A B} (m : result E A) (k : A -> result E B) : result E B :=
  match m with
  | Returns a => k a
  | Raises e => Raises e
  end.

(** Why a call could not bind its arguments, or two keys could not be
    compared; each is a [TypeError]. *)
Inductive type_error : Type :=
| TooManyPositional (given : nat)
| UnexpectedKeyword (kw : string)
| MultipleValues (param : string)
| MissingArgument (param : string)
| Unorderable.

(** The exceptions that [cli.py] can raise by itself. *)
Inductive exn : Type :=
| TypeError (why : type_error)
| NotImplementedError
| IndexError
| LibraryError (msg : string).

(** Values that end up in table cells and in calls.  [VMethod] is a
    method of a tuple; [VSpecial] is what a special attribute of an
    instance holds (its class, its module, a method of [object]), which
    the model names and does not look into. *)
Inductive value : Type :=
| VNone
| VBool (b : bool)
| VInt (z : Z)
| VStr (s : string)
| VStrs (l : list string)
| VMethod (name : string)
| VSpecial (attr : string).

Definition nl : string := String "010"%char EmptyString.

Definition str_of_Z (z : Z) : string := NilZero.string_of_int (Z.to_int z).
Definition str_of_nat (n : nat) : string := str_of_Z (Z.of_nat n).

Definition repr_str (s : string) : string := "'" ++ s ++ "'".

(** [str(v)], which is also what ['{}'.format(v)] inserts. *)
Definition str (v : value) : string :=
  match v with
  | VNone => "None"
  | VBool true => "True"
  | VBool false => "False"
  | VInt z => str_of_Z z
  | VStr s => s
  | VStrs l => "[" ++ String.concat ", " (map repr_str l) ++ "]"
  | VMethod n => "<built-in method " ++ n ++ ">"
  | VSpecial a => "<" ++ a ++ ">"
  end.

(** [s.split(sep)] for a one character separator. *)
Fixpoint split (sep : ascii) (s : string) : list string :=
  match s with
  | EmptyString => [EmptyString]
  | String c rest =>
      if Ascii.eqb c sep then EmptyString :: split sep rest
      else match split sep rest with
           | [] => [String c EmptyString]
           | w :: ws => String c w :: ws
           end
  end.

(** The attributes every instance has, whatever its class: the ones of
    [object], and the module of the class. *)
Definition object_attrs : list string :=
  ["__class__"; "__delattr__"; "__dir__"; "__doc__"; "__eq__"; "__format__"; "__ge__";
   "__getattribute__"; "__gt__"; "__hash__"; "__init__"; "__init_subclass__"; "__le__";
   "__lt__"; "__module__"; "__ne__"; "__new__"; "__reduce__"; "__reduce_ex__"; "__repr__";
   "__setattr__"; "__sizeof__"; "__str__"; "__subclasshook__"].

(** [getattr(o, attr, default)] for a name [attr] that is not a field of
    the instance [o]. *)
Definition object_getattr (attr : string) (default : value) : value :=
  if existsb (String.eqb attr) object_attrs then VSpecial attr else default.

(** A tuple is the list of its items.  Besides the special methods a
    tuple has exactly two attributes, [count] and [index]. *)
Definition tuple := list value.

Definition tuple_attrs : list string := ["count"; "index"].

Definition is_dunder (a : string) : bool :=
  String.prefix "__" a && (3 <? String.length a)%nat
  && String.eqb (substring (String.length a - 2) 2 a) "__".

(** [getattr(t, attr, default)] on a tuple [t]. *)
Definition tuple_getattr (t : tuple) (attr : string) (default : value) : value :=
  if existsb (String.eqb attr) tuple_attrs || is_dunder attr
  then VMethod attr
  else default.

(** [a < b] as [sorted] evaluates it on two keys: defined between
    numbers (a boolean is a number) and between strings; [None] stands
    for the [TypeError] of any other pair. *)
Definition value_lt (a b : value) : option bool :=
  match a, b with
  | VInt x, VInt y => Some (x <? y)%Z
  | VBool x, VBool y => Some (Z.b2z x <? Z.b2z y)%Z
  | VInt x, VBool y => Some (x <? Z.b2z y)%Z
  | VBool x, VInt y => Some (Z.b2z x <? y)%Z
  | VStr x, VStr y => Some (String.ltb x y)
  | _, _ => None
  end.

(** ** [sorted(l, key=...)]

    Python's sort is stable and compares keys with [<] only.  The model
    inserts from the right: an item goes in front of the first item whose
    key is not smaller than its own, so equal keys keep their order.  A
    comparison that is not defined raises; the front end sorts keys of
    one type only, where none is. *)
Section Sorted.
Context {A K : Type}.
Variable lt : K -> K -> option bool.
Variable key : A -> K.

Fixpoint insert (x : A) (l : list A) : result exn (list A) :=
  match l with
  | [] => Returns [x]
  | h :: t =>
      match lt (key h) (key x) with
      | None => Raises (TypeError Unorderable)
      | Some true => bind (insert x t) (fun r => Returns (h :: r))
      | Some false => Returns (x :: h :: t)
      end
  end.

Fixpoint sorted (l : list A) : result exn (list A) :=
  match l with
  | [] => Returns []
  | x :: t => bind (sorted t) (insert x)
  end.
End Sorted.

(** ** Binding the arguments of a call

    [def f(p1, ..., pn)] with no defaults, no [*args] and no [**kwargs],
    called as [f(a1, ..., am, k1=v1, ...)]. *)
Section Call.
Context {V : Type}.

Definition mem (s : string) (l : list string) : bool := existsb (String.eqb s) l.

Fixpoint remove_name (s : string) (l : list string) : list string :=
  match l with
  | [] => []
  | h :: t => if String.eqb s h then t else h :: remove_name s t
  end.

Fixpoint bind_keywords (bound : list (string * V)) (free : list string)
         (kw : list (string * V)) : result exn (list (string * V) * list string) :=
  match kw with
  | [] => Returns (bound, free)
  | (k, v) :: kw' =>
      if mem k free then bind_keywords (bound ++ [(k, v)]) (remove_name k free) kw'
      else if mem k (map fst bound) then Raises (TypeError (MultipleValues k))
      else Raises (TypeError (UnexpectedKeyword k))
  end.

(** Positional arguments fill the parameters from the left; keywords
    are bound next, and an unknown or repeated one raises at once; then
    come the check for surplus positional arguments and the check for
    parameters left without a value. *)
Definition bind_args (params : list string) (pos : list V) (kw : list (string * V))
  : result exn (list (string * V)) :=
  let bound := combine params pos in
  let free := skipn (List.length pos) params in
  bind (bind_keywords bound free kw) (fun r =>
  if (List.length params <? List.length pos)%nat
  then Raises (TypeError (TooManyPositional (List.length pos)))
  else match snd r with
       | [] => Returns (fst r)
       | p :: _ => Raises (TypeError (MissingArgument p))
       end).

(** Calling a function: bind the arguments, then run the body. *)
Definition call {R} (params : list string) (body : list (string * V) -> result exn R)
           (pos : list V) (kw : list (string * V)) : result exn R :=
  bind (bind_args params pos kw) body.
End Call.

End Py.

(* ===================================================================== *)
(** * The library: records and operations *)
(* ===================================================================== *)

Module Rsparam.

Module Group.
(** Modelled from the spec: the class of a parameter group is declared in
    the library, which this front end imports.  The fields carry the
    attribute names [cli.py] reads ([guid], [name], [lineno]); [guid] is
    the group's integer id, shown under the header [Id]. *)
Record t : Type := mk {
  guid : Z;
  name : string;
  lineno : Z
}.
End Group.

Module Param.
(** Modelled from the spec: the class of a parameter definition is
    declared in the library as well.  [guid], [name], [datatype], [group]
    and [lineno] are the attributes [cli.py] reads; [group] is the id of
    the group the parameter refers to; the four remaining fields are kept
    verbatim. *)
Record t : Type := mk {
  guid : string;
  name : string;
  datatype : string;
  group : Z;
  data_category : string;
  visible : string;
  description : string;
  user_modifiable : string;
  lineno : Z
}.
End Param.

(** [SharedParamEntries(groups, params)]: a pair of collections.  The
    items are records for [find] and [compare], lists of records sharing
    a key for [find_duplicates]. *)
Record Entries (G P : Type) : Type := mkEntries {
  groups : list G;
  params : list P
}.
Arguments mkEntries {G P} groups params.
Arguments groups {G P} e.
Arguments params {G P} e.

(** Modelled from the spec: a parsed file, its groups and its
    parameters, each in declaration order. *)
Definition File : Type := Entries Group.t Param.t.

(** Modelled from the spec: the errors the core reports to its caller. *)
Inductive error : Type :=
| DecodeError (encoding : string)
| MalformedLineError (line_number : Z) (raw_text : string)
| PatternError (pattern reason : string).

(** ** Keys *)

(** Modelled from the spec: a comparison key, a group id or a text (a
    GUID or a name). *)
Inductive key : Type :=
| KInt (z : Z)
| KStr (s : string).

Definition key_eqb (a b : key) : bool :=
  match a, b with
  | KInt x, KInt y => Z.eqb x y
  | KStr x, KStr y => String.eqb x y
  | _, _ => false
  end.

Definition group_key (by_name : bool) (g : Group.t) : key :=
  if by_name then KStr (Group.name g) else KInt (Group.guid g).

Definition param_key (by_name : bool) (p : Param.t) : key :=
  if by_name then KStr (Param.name p) else KStr (Param.guid p).

(** ** find_duplicates *)

Section Duplicates.
Context {A : Type}.
Variable key_of : A -> key.

(** Modelled from the spec: the grouping of [find_duplicates].  [x] is
    appended to the members of [k]; a new entry is opened at the end when
    [k] is met for the first time. *)
Fixpoint dict_append (k : key) (x : A) (d : list (key * list A))
  : list (key * list A) :=
  match d with
  | [] => [(k, [x])]
  | (k', xs) :: d' =>
      if key_eqb k k' then (k', (xs ++ [x])%list) :: d'
      else (k', xs) :: dict_append k x d'
  end.

Definition group_records (l : list A) : list (key * list A) :=
  fold_left (fun d x => dict_append (key_of x) x d) l [].

Definition duplicates (l : list A) : list (key * list A) :=
  List.filter (fun kv => (2 <=? List.length (snd kv))%nat) (group_records l).
End Duplicates.

(** Modelled from the spec: a duplicate set.  For groups and for
    parameters, the keys shared by two records or more, each with the
    records that share it. *)
Definition DuplicateSet : Type :=
  Entries (key * list Group.t) (key * list Param.t).

(** Modelled from the spec: [find_duplicates] is a function of the
    library.  Records are grouped by GUID (the id, for a group) or by
    name; only keys with two members or more are kept; members stay in
    file order. *)
Definition find_duplicates (file : File) (by_name : bool) : DuplicateSet :=
  mkEntries (duplicates (group_key by_name) (groups file))
            (duplicates (param_key by_name) (params file)).

(** ** compare *)

Definition has_key {A} (key_of : A -> key) (k : key) (l : list A) : bool :=
  existsb (fun r => key_eqb k (key_of r)) l.

Definition unique_to {A} (key_of : A -> key) (mine theirs : list A) : list A :=
  List.filter (fun r => negb (has_key key_of (key_of r) theirs)) mine.

(** Modelled from the spec: [compare] is a function of the library.  It
    returns, for each file, the records whose key has no counterpart in
    the other file; groups are compared by group keys and parameters by
    parameter keys. *)
Definition compare (file_a file_b : File) (by_name : bool) : File * File :=
  (mkEntries (unique_to (group_key by_name) (groups file_a) (groups file_b))
             (unique_to (param_key by_name) (params file_a) (params file_b)),
   mkEntries (unique_to (group_key by_name) (groups file_b) (groups file_a))
             (unique_to (param_key by_name) (params file_b) (params file_a))).

(** ** find *)

(** The regular expression engine [find] relies on, Python's [re] in
    the library: [compile] rejects an unparseable pattern with a reason,
    [search] tells whether a compiled pattern matches a text. *)
Record Engine : Type := mkEngine {
  regex : Type;
  compile : string -> regex + string;
  search : regex -> string -> bool
}.

(** Modelled from the spec: [find] is a function of the library.  A
    group matches if the pattern matches its name, a parameter matches
    if the pattern matches its name; an unparseable pattern is a
    [PatternError]. *)
Definition find (re : Engine) (file : File) (pattern : string) : Py.result error File :=
  match compile re pattern with
  | inr reason => Py.Raises (PatternError pattern reason)
  | inl r =>
      Py.Returns
        (mkEntries
           (List.filter (fun g => search re r (Group.name g)) (groups file))
           (List.filter (fun p => search re r (Param.name p)) (params file)))
  end.

End Rsparam.

(* ===================================================================== *)
(** * Regular expressions *)
(* ===================================================================== *)

(** Python's [re] on [str] patterns and texts, without flags.  A text
    is a sequence of code points; a [string] stands for the text it
    encodes in UTF-8.

    The syntax covers literal characters, [.], character classes
    [[...]] with ranges and negation, the class escapes
    [\d \D \w \W \s \S], the character escapes
    [\a \f \n \r \t \v \xhh \uhhhh \Uhhhhhhhh] and the octal ones, the
    anchors [^ $ \A \Z], the word boundaries [\b \B] ([\B] as up to
    Python 3.13, where it holds nowhere in an empty text), groups
    (capturing, non capturing and named), comments, alternation and the
    repetitions [* + ? {m} {m,} {,n} {m,n}], greedy or lazy.

    Back references, look-around, flags, conditionals, possessive
    repetition, atomic groups, [\N{...}], group names outside ASCII and
    counts above 1000 are outside the model: [parse] names them
    [Unsupported], which tells where the model stops and not what Python
    does with them. *)
Module Re.

Local Open Scope list_scope.
Local Open Scope N_scope.

(** A character is a code point. *)
Definition char : Type := N.

Definition text : Type := list char.

Definition of_ascii (c : ascii) : char := N_of_ascii c.

(** ** UTF-8 *)

(** The six low bits of a continuation byte. *)
Definition continuation (b : ascii) : option N :=
  let n := N_of_ascii b in
  if (128 <=? n) && (n <? 192) then Some (n - 128) else None.

(** The text a [string] encodes.  A byte that starts no sequence of
    UTF-8 stands for itself; no [str] encodes to such a string. *)
Fixpoint decode (s : string) : text :=
  match s with
  | EmptyString => []
  | String b1 rest1 =>
      let n := N_of_ascii b1 in
      let alone := n :: decode rest1 in
      if n <? 192 then alone
      else
        match rest1 with
        | EmptyString => alone
        | String b2 rest2 =>
            match continuation b2 with
            | None => alone
            | Some c2 =>
                if n <? 224 then ((n - 192) * 64 + c2) :: decode rest2
                else
                  match rest2 with
                  | EmptyString => alone
                  | String b3 rest3 =>
                      match continuation b3 with
                      | None => alone
                      | Some c3 =>
                          if n <? 240
                          then (((n - 224) * 64 + c2) * 64 + c3) :: decode rest3
                          else
                            match rest3 with
                            | EmptyString => alone
                            | String b4 rest4 =>
                                match continuation b4 with
                                | None => alone
                                | Some c4 =>
                                    ((((n - 240) * 64 + c2) * 64 + c3) * 64 + c4)
                                    :: decode rest4
                                end
                            end
                      end
                  end
            end
        end
  end.

(** ** Character sets *)

Definition ranges : Type := list (N * N).

Definition in_ranges (rs : ranges) (c : char) : bool :=
  existsb (fun r => (fst r <=? c) && (c <=? snd r)) rs.

(** [\d]: the decimal digits of Unicode 14.0. *)
Definition digit_ranges : ranges :=
  [(48, 57); (1632, 1641); (1776, 1785); (1984, 1993); (2406, 2415); (2534, 2543);
   (2662, 2671); (2790, 2799); (2918, 2927); (3046, 3055); (3174, 3183); (3302, 3311);
   (3430, 3439); (3558, 3567); (3664, 3673); (3792, 3801); (3872, 3881); (4160, 4169);
   (4240, 4249); (6112, 6121); (6160, 6169); (6470, 6479); (6608, 6617); (6784, 6793);
   (6800, 6809); (6992, 7001); (7088, 7097); (7232, 7241); (7248, 7257); (42528, 42537);
   (43216, 43225); (43264, 43273); (43472, 43481); (43504, 43513); (43600, 43609);
   (44016, 44025); (65296, 65305); (66720, 66729); (68912, 68921); (69734, 69743);
   (69872, 69881); (69942, 69951); (70096, 70105); (70384, 70393); (70736, 70745);
   (70864, 70873); (71248, 71257); (71360, 71369); (71472, 71481); (71904, 71913);
   (72016, 72025); (72784, 72793); (73040, 73049); (73120, 73129); (92768, 92777);
   (92864, 92873); (93008, 93017); (120782, 120831); (123200, 123209); (123632, 123641);
   (125264, 125273); (130032, 130041)].

(** [\s]: the white space of Unicode 14.0. *)
Definition space_ranges : ranges :=
  [(9, 13); (28, 32); (133, 133); (160, 160); (5760, 5760); (8192, 8202); (8232, 8233);
   (8239, 8239); (8287, 8287); (12288, 12288)].

(** [\w]: the alphanumeric characters of Unicode 14.0 and the
    underscore. *)
Definition word_ranges : ranges :=
  [(48, 57); (65, 90); (95, 95); (97, 122); (170, 170); (178, 179); (181, 181);
   (185, 186); (188, 190); (192, 214); (216, 246); (248, 705); (710, 721); (736, 740);
   (748, 748); (750, 750); (880, 884); (886, 887); (890, 893); (895, 895); (902, 902);
   (904, 906); (908, 908); (910, 929); (931, 1013); (1015, 1153); (1162, 1327);
   (1329, 1366); (1369, 1369); (1376, 1416); (1488, 1514); (1519, 1522); (1568, 1610);
   (1632, 1641); (1646, 1647); (1649, 1747); (1749, 1749); (1765, 1766); (1774, 1788);
   (1791, 1791); (1808, 1808); (1810, 1839); (1869, 1957); (1969, 1969); (1984, 2026);
   (2036, 2037); (2042, 2042); (2048, 2069); (2074, 2074); (2084, 2084); (2088, 2088);
   (2112, 2136); (2144, 2154); (2160, 2183); (2185, 2190); (2208, 2249); (2308, 2361);
   (2365, 2365); (2384, 2384); (2392, 2401); (2406, 2415); (2417, 2432); (2437, 2444);
   (2447, 2448); (2451, 2472); (2474, 2480); (2482, 2482); (2486, 2489); (2493, 2493);
   (2510, 2510); (2524, 2525); (2527, 2529); (2534, 2545); (2548, 2553); (2556, 2556);
   (2565, 2570); (2575, 2576); (2579, 2600); (2602, 2608); (2610, 2611); (2613, 2614);
   (2616, 2617); (2649, 2652); (2654, 2654); (2662, 2671); (2674, 2676); (2693, 2701);
   (2703, 2705); (2707, 2728); (2730, 2736); (2738, 2739); (2741, 2745); (2749, 2749);
   (2768, 2768); (2784, 2785); (2790, 2799); (2809, 2809); (2821, 2828); (2831, 2832);
   (2835, 2856); (2858, 2864); (2866, 2867); (2869, 2873); (2877, 2877); (2908, 2909);
   (2911, 2913); (2918, 2927); (2929, 2935); (2947, 2947); (2949, 2954); (2958, 2960);
   (2962, 2965); (2969, 2970); (2972, 2972); (2974, 2975); (2979, 2980); (2984, 2986);
   (2990, 3001); (3024, 3024); (3046, 3058); (3077, 3084); (3086, 3088); (3090, 3112);
   (3114, 3129); (3133, 3133); (3160, 3162); (3165, 3165); (3168, 3169); (3174, 3183);
   (3192, 3198); (3200, 3200); (3205, 3212); (3214, 3216); (3218, 3240); (3242, 3251);
   (3253, 3257); (3261, 3261); (3293, 3294); (3296, 3297); (3302, 3311); (3313, 3314);
   (3332, 3340); (3342, 3344); (3346, 3386); (3389, 3389); (3406, 3406); (3412, 3414);
   (3416, 3425); (3430, 3448); (3450, 3455); (3461, 3478); (3482, 3505); (3507, 3515);
   (3517, 3517); (3520, 3526); (3558, 3567); (3585, 3632); (3634, 3635); (3648, 3654);
   (3664, 3673); (3713, 3714); (3716, 3716); (3718, 3722); (3724, 3747); (3749, 3749);
   (3751, 3760); (3762, 3763); (3773, 3773); (3776, 3780); (3782, 3782); (3792, 3801);
   (3804, 3807); (3840, 3840); (3872, 3891); (3904, 3911); (3913, 3948); (3976, 3980);
   (4096, 4138); (4159, 4169); (4176, 4181); (4186, 4189); (4193, 4193); (4197, 4198);
   (4206, 4208); (4213, 4225); (4238, 4238); (4240, 4249); (4256, 4293); (4295, 4295);
   (4301, 4301); (4304, 4346); (4348, 4680); (4682, 4685); (4688, 4694); (4696, 4696);
   (4698, 4701); (4704, 4744); (4746, 4749); (4752, 4784); (4786, 4789); (4792, 4798);
   (4800, 4800); (4802, 4805); (4808, 4822); (4824, 4880); (4882, 4885); (4888, 4954);
   (4969, 4988); (4992, 5007); (5024, 5109); (5112, 5117); (5121, 5740); (5743, 5759);
   (5761, 5786); (5792, 5866); (5870, 5880); (5888, 5905); (5919, 5937); (5952, 5969);
   (5984, 5996); (5998, 6000); (6016, 6067); (6103, 6103); (6108, 6108); (6112, 6121);
   (6128, 6137); (6160, 6169); (6176, 6264); (6272, 6276); (6279, 6312); (6314, 6314);
   (6320, 6389); (6400, 6430); (6470, 6509); (6512, 6516); (6528, 6571); (6576, 6601);
   (6608, 6618); (6656, 6678); (6688, 6740); (6784, 6793); (6800, 6809); (6823, 6823);
   (6917, 6963); (6981, 6988); (6992, 7001); (7043, 7072); (7086, 7141); (7168, 7203);
   (7232, 7241); (7245, 7293); (7296, 7304); (7312, 7354); (7357, 7359); (7401, 7404);
   (7406, 7411); (7413, 7414); (7418, 7418); (7424, 7615); (7680, 7957); (7960, 7965);
   (7968, 8005); (8008, 8013); (8016, 8023); (8025, 8025); (8027, 8027); (8029, 8029);
   (8031, 8061); (8064, 8116); (8118, 8124); (8126, 8126); (8130, 8132); (8134, 8140);
   (8144, 8147); (8150, 8155); (8160, 8172); (8178, 8180); (8182, 8188); (8304, 8305);
   (8308, 8313); (8319, 8329); (8336, 8348); (8450, 8450); (8455, 8455); (8458, 8467);
   (8469, 8469); (8473, 8477); (8484, 8484); (8486, 8486); (8488, 8488); (8490, 8493);
   (8495, 8505); (8508, 8511); (8517, 8521); (8526, 8526); (8528, 8585); (9312, 9371);
   (9450, 9471); (10102, 10131); (11264, 11492); (11499, 11502); (11506, 11507);
   (11517, 11517); (11520, 11557); (11559, 11559); (11565, 11565); (11568, 11623);
   (11631, 11631); (11648, 11670); (11680, 11686); (11688, 11694); (11696, 11702);
   (11704, 11710); (11712, 11718); (11720, 11726); (11728, 11734); (11736, 11742);
   (11823, 11823); (12293, 12295); (12321, 12329); (12337, 12341); (12344, 12348);
   (12353, 12438); (12445, 12447); (12449, 12538); (12540, 12543); (12549, 12591);
   (12593, 12686); (12690, 12693); (12704, 12735); (12784, 12799); (12832, 12841);
   (12872, 12879); (12881, 12895); (12928, 12937); (12977, 12991); (13312, 19903);
   (19968, 42124); (42192, 42237); (42240, 42508); (42512, 42539); (42560, 42606);
   (42623, 42653); (42656, 42735); (42775, 42783); (42786, 42888); (42891, 42954);
   (42960, 42961); (42963, 42963); (42965, 42969); (42994, 43009); (43011, 43013);
   (43015, 43018); (43020, 43042); (43056, 43061); (43072, 43123); (43138, 43187);
   (43216, 43225); (43250, 43255); (43259, 43259); (43261, 43262); (43264, 43301);
   (43312, 43334); (43360, 43388); (43396, 43442); (43471, 43481); (43488, 43492);
   (43494, 43518); (43520, 43560); (43584, 43586); (43588, 43595); (43600, 43609);
   (43616, 43638); (43642, 43642); (43646, 43695); (43697, 43697); (43701, 43702);
   (43705, 43709); (43712, 43712); (43714, 43714); (43739, 43741); (43744, 43754);
   (43762, 43764); (43777, 43782); (43785, 43790); (43793, 43798); (43808, 43814);
   (43816, 43822); (43824, 43866); (43868, 43881); (43888, 44002); (44016, 44025);
   (44032, 55203); (55216, 55238); (55243, 55291); (63744, 64109); (64112, 64217);
   (64256, 64262); (64275, 64279); (64285, 64285); (64287, 64296); (64298, 64310);
   (64312, 64316); (64318, 64318); (64320, 64321); (64323, 64324); (64326, 64433);
   (64467, 64829); (64848, 64911); (64914, 64967); (65008, 65019); (65136, 65140);
   (65142, 65276); (65296, 65305); (65313, 65338); (65345, 65370); (65382, 65470);
   (65474, 65479); (65482, 65487); (65490, 65495); (65498, 65500); (65536, 65547);
   (65549, 65574); (65576, 65594); (65596, 65597); (65599, 65613); (65616, 65629);
   (65664, 65786); (65799, 65843); (65856, 65912); (65930, 65931); (66176, 66204);
   (66208, 66256); (66273, 66299); (66304, 66339); (66349, 66378); (66384, 66421);
   (66432, 66461); (66464, 66499); (66504, 66511); (66513, 66517); (66560, 66717);
   (66720, 66729); (66736, 66771); (66776, 66811); (66816, 66855); (66864, 66915);
   (66928, 66938); (66940, 66954); (66956, 66962); (66964, 66965); (66967, 66977);
   (66979, 66993); (66995, 67001); (67003, 67004); (67072, 67382); (67392, 67413);
   (67424, 67431); (67456, 67461); (67463, 67504); (67506, 67514); (67584, 67589);
   (67592, 67592); (67594, 67637); (67639, 67640); (67644, 67644); (67647, 67669);
   (67672, 67702); (67705, 67742); (67751, 67759); (67808, 67826); (67828, 67829);
   (67835, 67867); (67872, 67897); (67968, 68023); (68028, 68047); (68050, 68096);
   (68112, 68115); (68117, 68119); (68121, 68149); (68160, 68168); (68192, 68222);
   (68224, 68255); (68288, 68295); (68297, 68324); (68331, 68335); (68352, 68405);
   (68416, 68437); (68440, 68466); (68472, 68497); (68521, 68527); (68608, 68680);
   (68736, 68786); (68800, 68850); (68858, 68899); (68912, 68921); (69216, 69246);
   (69248, 69289); (69296, 69297); (69376, 69415); (69424, 69445); (69457, 69460);
   (69488, 69505); (69552, 69579); (69600, 69622); (69635, 69687); (69714, 69743);
   (69745, 69746); (69749, 69749); (69763, 69807); (69840, 69864); (69872, 69881);
   (69891, 69926); (69942, 69951); (69956, 69956); (69959, 69959); (69968, 70002);
   (70006, 70006); (70019, 70066); (70081, 70084); (70096, 70106); (70108, 70108);
   (70113, 70132); (70144, 70161); (70163, 70187); (70272, 70278); (70280, 70280);
   (70282, 70285); (70287, 70301); (70303, 70312); (70320, 70366); (70384, 70393);
   (70405, 70412); (70415, 70416); (70419, 70440); (70442, 70448); (70450, 70451);
   (70453, 70457); (70461, 70461); (70480, 70480); (70493, 70497); (70656, 70708);
   (70727, 70730); (70736, 70745); (70751, 70753); (70784, 70831); (70852, 70853);
   (70855, 70855); (70864, 70873); (71040, 71086); (71128, 71131); (71168, 71215);
   (71236, 71236); (71248, 71257); (71296, 71338); (71352, 71352); (71360, 71369);
   (71424, 71450); (71472, 71483); (71488, 71494); (71680, 71723); (71840, 71922);
   (71935, 71942); (71945, 71945); (71948, 71955); (71957, 71958); (71960, 71983);
   (71999, 71999); (72001, 72001); (72016, 72025); (72096, 72103); (72106, 72144);
   (72161, 72161); (72163, 72163); (72192, 72192); (72203, 72242); (72250, 72250);
   (72272, 72272); (72284, 72329); (72349, 72349); (72368, 72440); (72704, 72712);
   (72714, 72750); (72768, 72768); (72784, 72812); (72818, 72847); (72960, 72966);
   (72968, 72969); (72971, 73008); (73030, 73030); (73040, 73049); (73056, 73061);
   (73063, 73064); (73066, 73097); (73112, 73112); (73120, 73129); (73440, 73458);
   (73648, 73648); (73664, 73684); (73728, 74649); (74752, 74862); (74880, 75075);
   (77712, 77808); (77824, 78894); (82944, 83526); (92160, 92728); (92736, 92766);
   (92768, 92777); (92784, 92862); (92864, 92873); (92880, 92909); (92928, 92975);
   (92992, 92995); (93008, 93017); (93019, 93025); (93027, 93047); (93053, 93071);
   (93760, 93846); (93952, 94026); (94032, 94032); (94099, 94111); (94176, 94177);
   (94179, 94179); (94208, 100343); (100352, 101589); (101632, 101640);
   (110576, 110579); (110581, 110587); (110589, 110590); (110592, 110882);
   (110928, 110930); (110948, 110951); (110960, 111355); (113664, 113770);
   (113776, 113788); (113792, 113800); (113808, 113817); (119520, 119539);
   (119648, 119672); (119808, 119892); (119894, 119964); (119966, 119967);
   (119970, 119970); (119973, 119974); (119977, 119980); (119982, 119993);
   (119995, 119995); (119997, 120003); (120005, 120069); (120071, 120074);
   (120077, 120084); (120086, 120092); (120094, 120121); (120123, 120126);
   (120128, 120132); (120134, 120134); (120138, 120144); (120146, 120485);
   (120488, 120512); (120514, 120538); (120540, 120570); (120572, 120596);
   (120598, 120628); (120630, 120654); (120656, 120686); (120688, 120712);
   (120714, 120744); (120746, 120770); (120772, 120779); (120782, 120831);
   (122624, 122654); (123136, 123180); (123191, 123197); (123200, 123209);
   (123214, 123214); (123536, 123565); (123584, 123627); (123632, 123641);
   (124896, 124902); (124904, 124907); (124909, 124910); (124912, 124926);
   (124928, 125124); (125127, 125135); (125184, 125251); (125259, 125259);
   (125264, 125273); (126065, 126123); (126125, 126127); (126129, 126132);
   (126209, 126253); (126255, 126269); (126464, 126467); (126469, 126495);
   (126497, 126498); (126500, 126500); (126503, 126503); (126505, 126514);
   (126516, 126519); (126521, 126521); (126523, 126523); (126530, 126530);
   (126535, 126535); (126537, 126537); (126539, 126539); (126541, 126543);
   (126545, 126546); (126548, 126548); (126551, 126551); (126553, 126553);
   (126555, 126555); (126557, 126557); (126559, 126559); (126561, 126562);
   (126564, 126564); (126567, 126570); (126572, 126578); (126580, 126583);
   (126585, 126588); (126590, 126590); (126592, 126601); (126603, 126619);
   (126625, 126627); (126629, 126633); (126635, 126651); (127232, 127244);
   (130032, 130041); (131072, 173791); (173824, 177976); (177984, 178205);
   (178208, 183969); (183984, 191456); (194560, 195101); (196608, 201546)].

Inductive category : Type := Digit | Space | Word.

Definition in_category (k : category) (c : char) : bool :=
  match k with
  | Digit => in_ranges digit_ranges c
  | Space => in_ranges space_ranges c
  | Word => in_ranges word_ranges c
  end.

(** A member of a class: the characters of a range, the characters of a
    category ([\d], [\s], [\w]) or the characters outside a category
    ([\D], [\S], [\W]). *)
Inductive member : Type :=
| Range (lo hi : N)
| Inside (k : category)
| Outside (k : category).

Definition in_member (c : char) (m : member) : bool :=
  match m with
  | Range lo hi => (lo <=? c) && (c <=? hi)
  | Inside k => in_category k c
  | Outside k => negb (in_category k c)
  end.

(** ** Patterns *)

Inductive assertion : Type :=
| Bos          (* ^ and \A: at the start of the text *)
| Eol          (* $: at the end of the text, or before its final newline *)
| Eos          (* \Z: at the end of the text *)
| Boundary     (* \b: between a word character and what is not one *)
| NotBoundary. (* \B: elsewhere, and nowhere in an empty text *)

Inductive regex : Type :=
| Empty
| Never
| Chars (negated : bool) (members : list member)
| At (a : assertion)
| Seq (r1 r2 : regex)
| Alt (r1 r2 : regex)
| Star (r : regex).

Definition in_chars (negated : bool) (members : list member) (c : char) : bool :=
  xorb negated (existsb (in_member c) members).

Definition lit (c : char) : regex := Chars false [Range c c].

(** [.]: any character but a newline. *)
Definition dot : regex := Chars true [Range 10 10].

Fixpoint seq_of (rs : list regex) : regex :=
  match rs with
  | [] => Empty
  | [r] => r
  | r :: rs' => Seq r (seq_of rs')
  end.

Fixpoint alt_of (rs : list regex) : regex :=
  match rs with
  | [] => Never
  | [r] => r
  | r :: rs' => Alt r (alt_of rs')
  end.

(** [r] exactly [n] times, and [r] at most [n] times. *)
Fixpoint times (n : nat) (r : regex) : regex :=
  match n with
  | O => Empty
  | S n' => Seq r (times n' r)
  end.

Fixpoint at_most (n : nat) (r : regex) : regex :=
  match n with
  | O => Empty
  | S n' => Alt Empty (Seq r (at_most n' r))
  end.

(** [r{min,max}]; no [max] is no upper bound. *)
Definition repeated (min : nat) (max : option nat) (r : regex) : regex :=
  match max with
  | None => Seq (times min r) (Star r)
  | Some n => Seq (times min r) (at_most (n - min) r)
  end.

(** ** What a pattern matches *)

(** The character before a position: [prev] before [w], the last of [w]
    after it. *)
Definition last_of (prev : option char) (w : text) : option char :=
  fold_left (fun _ c => Some c) w prev.

Definition word_at (o : option char) : bool :=
  match o with
  | Some c => in_category Word c
  | None => false
  end.

Definition boundary (prev : option char) (rest : text) : bool :=
  xorb (word_at prev) (word_at (hd_error rest)).

(** An assertion at a position, given the character before it and the
    text after it. *)
Definition holds (a : assertion) (prev : option char) (rest : text) : bool :=
  match a with
  | Bos => match prev with None => true | Some _ => false end
  | Eol => match rest with
           | [] => true
           | [c] => c =? 10
           | _ => false
           end
  | Eos => match rest with [] => true | _ => false end
  | Boundary => boundary prev rest
  | NotBoundary =>
      negb (boundary prev rest)
      && match prev, rest with None, [] => false | _, _ => true end
  end.


(** The three ways [re] applies a pattern to a text. *)
Inductive how : Type :=
| Search      (* re.search: the pattern matches a piece of the text *)
| Match       (* re.match: the pattern matches a piece at the start *)
| Fullmatch.  (* re.fullmatch: the pattern matches the whole text *)


(** ** Matching *)

(** Whether [r] matches the empty piece at a position. *)
Fixpoint nullable (r : regex) (prev : option char) (rest : text) : bool :=
  match r with
  | Empty => true
  | Never => false
  | Chars _ _ => false
  | At a => holds a prev rest
  | Seq r1 r2 => nullable r1 prev rest && nullable r2 prev rest
  | Alt r1 r2 => nullable r1 prev rest || nullable r2 prev rest
  | Star _ => true
  end.

(** Whether two patterns are the same. *)
Definition member_eq_dec (a b : member) : {a = b} + {a <> b}.
Proof. decide equality; try apply N.eq_dec; decide equality. Defined.

Definition regex_eq_dec (a b : regex) : {a = b} + {a <> b}.
Proof.
  decide equality.
  - apply (list_eq_dec member_eq_dec).
  - apply bool_dec.
  - decide equality.
Defined.

Definition same (a b : regex) : bool := if regex_eq_dec a b then true else false.

(** [rs] with [r], once. *)
Definition add (r : regex) (rs : list regex) : list regex :=
  if existsb (same r) rs then rs else r :: rs.

(** What may be left of [r] once it has read [c], the text going on
    with [rest]: the pattern goes on as one of these. *)
Fixpoint after (r : regex) (prev : option char) (c : char) (rest : text) : list regex :=
  match r with
  | Empty => []
  | Never => []
  | Chars negated members => if in_chars negated members c then [Empty] else []
  | At _ => []
  | Seq r1 r2 =>
      map (fun r1' => Seq r1' r2) (after r1 prev c rest)
      ++ (if nullable r1 prev (c :: rest) then after r2 prev c rest else [])
  | Alt r1 r2 => after r1 prev c rest ++ after r2 prev c rest
  | Star r1 => map (fun r1' => Seq r1' (Star r1)) (after r1 prev c rest)
  end.

(** What may be left of one of [rs] once it has read [c]. *)
Definition step (rs : list regex) (prev : option char) (c : char) (rest : text)
  : list regex :=
  fold_right add [] (flat_map (fun r => after r prev c rest) rs).

(** One of [rs] matches the whole of [s]. *)
Fixpoint match_all (rs : list regex) (prev : option char) (s : text) : bool :=
  match s with
  | [] => existsb (fun r => nullable r prev []) rs
  | c :: s' => match_all (step rs prev c s') (Some c) s'
  end.

(** One of [rs] matches a piece at the start of [s]. *)
Fixpoint match_start (rs : list regex) (prev : option char) (s : text) : bool :=
  existsb (fun r => nullable r prev s) rs ||
  match s with
  | [] => false
  | c :: s' => match_start (step rs prev c s') (Some c) s'
  end.

(** [r] matches a piece of [s]. *)
Fixpoint match_anywhere (r : regex) (prev : option char) (s : text) : bool :=
  match_start [r] prev s ||
  match s with
  | [] => false
  | c :: s' => match_anywhere r (Some c) s'
  end.

Definition run (h : how) (r : regex) (s : string) : bool :=
  match h with
  | Search => match_anywhere r None (decode s)
  | Match => match_start [r] None (decode s)
  | Fullmatch => match_all [r] None (decode s)
  end.

(** ** Reading a pattern *)

Inductive failure : Type :=
| Invalid (reason : string)      (* [re.error] *)
| Unsupported (what : string).   (* outside the model *)

Inductive token : Type :=
| TAtom (r : regex)
| TAt (a : assertion)
| TRepeat (min : nat) (max : option nat)
| TOpen (name : option text)
| TClose
| TBar.

(** [c] is the character [a]; [c] is one of the characters of [set]. *)
Definition is_char (a : ascii) (c : char) : bool := c =? of_ascii a.

Definition one_of (set : string) (c : char) : bool :=
  existsb (fun a => is_char a c) (list_ascii_of_string set).

(** The characters that do not stand for themselves in a pattern. *)
Definition special (c : char) : bool := one_of ".\[{()*+?^$|" c.

Definition is_digit (c : char) : bool := in_ranges [(48, 57)] c.

Definition is_octal (c : char) : bool := in_ranges [(48, 55)] c.

Definition is_ascii_letter (c : char) : bool := in_ranges [(65, 90); (97, 122)] c.

Definition hex_value (c : char) : option N :=
  if in_ranges [(48, 57)] c then Some (c - 48)
  else if in_ranges [(97, 102)] c then Some (c - 87)
  else if in_ranges [(65, 70)] c then Some (c - 55)
  else None.

(** The value of [n] hexadecimal digits after [acc], and what follows
    them. *)
Fixpoint hex (n : nat) (acc : N) (s : text) : option (N * text) :=
  match n, s with
  | O, _ => Some (acc, s)
  | S n', c :: rest =>
      match hex_value c with
      | Some v => hex n' (16 * acc + v) rest
      | None => None
      end
  | S _, [] => None
  end.

(** The value of at most [n] octal digits after [acc], and what follows
    them. *)
Fixpoint octal (n : nat) (acc : N) (s : text) : N * text :=
  match n, s with
  | S n', c :: rest => if is_octal c then octal n' (8 * acc + (c - 48)) rest else (acc, s)
  | _, _ => (acc, s)
  end.

(** What an escape stands for: a character, or the characters in or
    out of a category. *)
Inductive class_atom : Type :=
| One (c : char)
| Many (m : member).

(** [\c] followed by [rest], for the escapes that read the same in a
    class and outside. *)
Definition common_escape (c : char) (rest : text) : (class_atom * text) + failure :=
  if is_char "a" c then inl (One 7, rest)
  else if is_char "f" c then inl (One 12, rest)
  else if is_char "n" c then inl (One 10, rest)
  else if is_char "r" c then inl (One 13, rest)
  else if is_char "t" c then inl (One 9, rest)
  else if is_char "v" c then inl (One 11, rest)
  else if is_char "d" c then inl (Many (Inside Digit), rest)
  else if is_char "D" c then inl (Many (Outside Digit), rest)
  else if is_char "w" c then inl (Many (Inside Word), rest)
  else if is_char "W" c then inl (Many (Outside Word), rest)
  else if is_char "s" c then inl (Many (Inside Space), rest)
  else if is_char "S" c then inl (Many (Outside Space), rest)
  else if is_char "x" c then
    match hex 2 0 rest with
    | Some (v, rest') => inl (One v, rest')
    | None => inr (Invalid "incomplete escape")
    end
  else if is_char "u" c then
    match hex 4 0 rest with
    | Some (v, rest') => inl (One v, rest')
    | None => inr (Invalid "incomplete escape")
    end
  else if is_char "U" c then
    match hex 8 0 rest with
    | Some (v, rest') =>
        if v <=? 1114111 then inl (One v, rest') else inr (Invalid "bad escape")
    | None => inr (Invalid "incomplete escape")
    end
  else if is_char "N" c then inr (Unsupported "named character")
  else if is_ascii_letter c then inr (Invalid "bad escape")
  else inl (One c, rest).

(** [\c] followed by [rest], in a class. *)
Definition class_escape (c : char) (rest : text) : (class_atom * text) + failure :=
  if is_char "b" c then inl (One 8, rest)
  else if is_octal c then
    let v := octal 2 (c - 48) rest in
    if fst v <=? 255 then inl (One (fst v), snd v)
    else inr (Invalid "octal escape value outside of range 0-0o377")
  else if is_digit c then inr (Invalid "bad escape")
  else common_escape c rest.

(** [\c] followed by [rest], outside a class.  A digit that is not
    [0] starts an octal escape when three octal digits are there, and a
    group reference otherwise. *)
Definition escape (c : char) (rest : text) : (token * text) + failure :=
  if is_char "A" c then inl (TAt Bos, rest)
  else if is_char "Z" c then inl (TAt Eos, rest)
  else if is_char "b" c then inl (TAt Boundary, rest)
  else if is_char "B" c then inl (TAt NotBoundary, rest)
  else if is_char "0" c then
    let v := octal 2 0 rest in inl (TAtom (lit (fst v)), snd v)
  else if is_digit c then
    match rest with
    | d :: e :: rest' =>
        if is_octal c && is_octal d && is_octal e then
          let v := 64 * (c - 48) + 8 * (d - 48) + (e - 48) in
          if v <=? 255 then inl (TAtom (lit v), rest')
          else inr (Invalid "octal escape value outside of range 0-0o377")
        else inr (Unsupported "group reference")
    | _ => inr (Unsupported "group reference")
    end
  else
    match common_escape c rest with
    | inl (One v, rest') => inl (TAtom (lit v), rest')
    | inl (Many m, rest') => inl (TAtom (Chars false [m]), rest')
    | inr f => inr f
    end.

(** One item of a class: a character or an escape. *)
Definition class_item (s : text) : (class_atom * text) + failure :=
  match s with
  | [] => inr (Invalid "unterminated character set")
  | c :: rest =>
      if is_char "\" c then
        match rest with
        | [] => inr (Invalid "bad escape (end of pattern)")
        | d :: rest' => class_escape d rest'
        end
      else inl (One c, rest)
  end.

Definition member_of (a : class_atom) : member :=
  match a with
  | One c => Range c c
  | Many m => m
  end.

Definition closes (s : text) : bool :=
  match s with
  | c :: _ => is_char "]" c
  | [] => false
  end.

(** The members of a class, up to the bracket that closes it; [acc]
    holds the members read so far.  A closing bracket that comes first
    stands for itself, and so does a hyphen that comes last. *)
Fixpoint class_members (fuel : nat) (s : text) (acc : list member)
  : (list member * text) + failure :=
  match fuel with
  | O => inr (Unsupported "long character set")
  | S fuel' =>
      if closes s && negb (Nat.eqb (List.length acc) 0) then inl (acc, tl s)
      else
        match class_item s with
        | inr f => inr f
        | inl (a, rest) =>
            match rest with
            | h :: rest' =>
                if is_char "-" h then
                  match rest' with
                  | [] => inr (Invalid "unterminated character set")
                  | _ :: _ =>
                      if closes rest'
                      then inl (acc ++ [member_of a; Range 45 45], tl rest')
                      else
                        match class_item rest' with
                        | inr f => inr f
                        | inl (b, rest'') =>
                            match a, b with
                            | One lo, One hi =>
                                if lo <=? hi
                                then class_members fuel' rest'' (acc ++ [Range lo hi])
                                else inr (Invalid "bad character range")
                            | _, _ => inr (Invalid "bad character range")
                            end
                        end
                  end
                else class_members fuel' rest (acc ++ [member_of a])
            | [] => class_members fuel' rest (acc ++ [member_of a])
            end
        end
  end.

(** [[...]], after its opening bracket. *)
Definition class (s : text) : (regex * text) + failure :=
  let body := match s with
              | c :: rest => if is_char "^" c then (true, rest) else (false, s)
              | [] => (false, s)
              end in
  match class_members (S (List.length s)) (snd body) [] with
  | inl (members, rest) => inl (Chars (fst body) members, rest)
  | inr f => inr f
  end.

(** The digits a text starts with, and what follows them. *)
Fixpoint digits (s : text) : text * text :=
  match s with
  | c :: rest =>
      if is_digit c then (c :: fst (digits rest), snd (digits rest)) else ([], s)
  | [] => ([], [])
  end.

Definition number (ds : text) : nat :=
  N.to_nat (fold_left (fun n d => 10 * n + (d - 48)) ds 0).

Definition starts_with (a : ascii) (s : text) : bool :=
  match s with
  | c :: _ => is_char a c
  | [] => false
  end.

(** [{m}], [{m,}], [{,n}] or [{m,n}], after its opening brace: the
    digits of the bounds and what follows the closing brace.  Anything
    else leaves the opening brace to stand for itself. *)
Definition counts (s : text) : option ((text * option text) * text) :=
  if starts_with "}" s then None
  else
    let lo := digits s in
    if starts_with "," (snd lo) then
      let hi := digits (tl (snd lo)) in
      if starts_with "}" (snd hi)
      then Some ((fst lo, match fst hi with [] => None | _ => Some (fst hi) end),
                 tl (snd hi))
      else None
    else if starts_with "}" (snd lo) then Some ((fst lo, Some (fst lo)), tl (snd lo))
    else None.

(** A repetition may be followed by [?], which makes it lazy and changes
    nothing to what it matches, or by [+], which makes it possessive. *)
Definition repetition (min : nat) (max : option nat) (rest : text)
  : (list token * text) + failure :=
  if starts_with "?" rest then inl ([TRepeat min max], tl rest)
  else if starts_with "+" rest then inr (Unsupported "possessive repetition")
  else inl ([TRepeat min max], rest).

Definition is_name_start (c : char) : bool := is_ascii_letter c || is_char "_" c.

(** What comes before the first [stop], and what follows it.  A
    backslash and the character after it go together. *)
Fixpoint until (stop : ascii) (s : text) : option (text * text) :=
  match s with
  | [] => None
  | c :: rest =>
      if is_char stop c then Some ([], rest)
      else if is_char "\" c then
        match rest with
        | [] => None
        | d :: rest' =>
            match until stop rest' with
            | Some (before, after) => Some (c :: d :: before, after)
            | None => None
            end
        end
      else
        match until stop rest with
        | Some (before, after) => Some (c :: before, after)
        | None => None
        end
  end.

(** [(?P<name>], after [(?P<]. *)
Definition named_group (s : text) : (list token * text) + failure :=
  match until ">" s with
  | None => inr (Invalid "missing >, unterminated name")
  | Some ([], _) => inr (Invalid "missing group name")
  | Some (c :: name, rest) =>
      if existsb (fun d => 127 <? d) (c :: name) then inr (Unsupported "group name")
      else if is_name_start c && forallb (fun d => is_name_start d || is_digit d) name
      then inl ([TOpen (Some (c :: name))], rest)
      else inr (Invalid "bad character in group name")
  end.

(** A group, after its opening parenthesis. *)
Definition group (s : text) : (list token * text) + failure :=
  if starts_with "?" s then
    match tl s with
    | [] => inr (Invalid "unexpected end of pattern")
    | k :: rest =>
        if is_char ":" k then inl ([TOpen None], rest)
        else if is_char "#" k then
          match until ")" rest with
          | Some (_, rest') => inl ([], rest')
          | None => inr (Invalid "missing ), unterminated comment")
          end
        else if is_char "P" k then
          if starts_with "<" rest then named_group (tl rest)
          else inr (Unsupported "extension")
        else inr (Unsupported "extension")
    end
  else inl ([TOpen None], s).

(** The bounds of a counted repetition. *)
Definition counted (lo : text) (hi : option text) (rest : text)
  : (list token * text) + failure :=
  let long := fun ds => (4 <? List.length ds)%nat in
  if long lo || match hi with Some h => long h | None => false end
  then inr (Unsupported "large repetition count")
  else
    match hi with
    | Some h =>
        if (number h <? number lo)%nat
        then inr (Invalid "min repeat greater than max repeat")
        else if (1000 <? number h)%nat then inr (Unsupported "large repetition count")
        else repetition (number lo) (Some (number h)) rest
    | None =>
        if (1000 <? number lo)%nat then inr (Unsupported "large repetition count")
        else repetition (number lo) None rest
    end.

(** The tokens read at a special character [c] followed by [rest]. *)
Definition special_token (c : char) (rest : text) : (list token * text) + failure :=
  if is_char "\" c then
    match rest with
    | [] => inr (Invalid "bad escape (end of pattern)")
    | d :: rest' =>
        match escape d rest' with
        | inl (t, rest'') => inl ([t], rest'')
        | inr f => inr f
        end
    end
  else if is_char "[" c then
    match class rest with
    | inl (r, rest') => inl ([TAtom r], rest')
    | inr f => inr f
    end
  else if is_char "(" c then group rest
  else if is_char ")" c then inl ([TClose], rest)
  else if is_char "|" c then inl ([TBar], rest)
  else if is_char "^" c then inl ([TAt Bos], rest)
  else if is_char "$" c then inl ([TAt Eol], rest)
  else if is_char "." c then inl ([TAtom dot], rest)
  else if is_char "*" c then repetition 0 None rest
  else if is_char "+" c then repetition 1 None rest
  else if is_char "?" c then repetition 0 (Some 1%nat) rest
  else
    match counts rest with
    | None => inl ([TAtom (lit c)], rest)
    | Some ((lo, hi), rest') => counted lo hi rest'
    end.

(** The tokens of a pattern, from left to right. *)
Fixpoint tokens (fuel : nat) (s : text) : list token + failure :=
  match s, fuel with
  | [], _ => inl []
  | _ :: _, O => inr (Unsupported "long pattern")
  | c :: rest, S fuel' =>
      if special c then
        match special_token c rest with
        | inr f => inr f
        | inl (ts, rest') =>
            match tokens fuel' rest' with
            | inl ts' => inl (ts ++ ts')
            | inr f => inr f
            end
        end
      else
        match tokens fuel' rest with
        | inl ts => inl (TAtom (lit c) :: ts)
        | inr f => inr f
        end
  end.

(** What a repetition may apply to. *)
Inductive kind : Type := Plain | Repeated | ZeroWidth.

(** A group being read: the alternatives that are complete, last first,
    and the items of the current one, last first. *)
Record frame : Type := mkFrame {
  alternatives : list regex;
  items : list (regex * kind)
}.

Definition sequence (its : list (regex * kind)) : regex := seq_of (map fst (rev its)).

Definition close (f : frame) : regex :=
  alt_of (rev (sequence (items f) :: alternatives f)).

Definition push (it : regex * kind) (f : frame) : frame :=
  mkFrame (alternatives f) (it :: items f).

(** The pattern of a list of tokens; [f] is the group being read and
    [outer] the groups around it, innermost first. *)
Fixpoint pattern_of (ts : list token) (f : frame) (outer : list frame) : regex + failure :=
  match ts with
  | [] =>
      match outer with
      | [] => inl (close f)
      | _ :: _ => inr (Invalid "missing ), unterminated subpattern")
      end
  | TAtom r :: ts' => pattern_of ts' (push (r, Plain) f) outer
  | TAt a :: ts' => pattern_of ts' (push (At a, ZeroWidth) f) outer
  | TRepeat min max :: ts' =>
      match items f with
      | [] => inr (Invalid "nothing to repeat")
      | (_, ZeroWidth) :: _ => inr (Invalid "nothing to repeat")
      | (_, Repeated) :: _ => inr (Invalid "multiple repeat")
      | (r, Plain) :: its =>
          pattern_of ts' (mkFrame (alternatives f) ((repeated min max r, Repeated) :: its)) outer
      end
  | TOpen _ :: ts' => pattern_of ts' (mkFrame [] []) (f :: outer)
  | TBar :: ts' =>
      pattern_of ts' (mkFrame (sequence (items f) :: alternatives f) []) outer
  | TClose :: ts' =>
      match outer with
      | [] => inr (Invalid "unbalanced parenthesis")
      | g :: outer' => pattern_of ts' (push (close f, Plain) g) outer'
      end
  end.

Fixpoint names (ts : list token) : list text :=
  match ts with
  | TOpen (Some n) :: ts' => n :: names ts'
  | _ :: ts' => names ts'
  | [] => []
  end.

Definition same_text (a b : text) : bool :=
  if list_eq_dec N.eq_dec a b then true else false.

Fixpoint distinct (l : list text) : bool :=
  match l with
  | [] => true
  | x :: l' => negb (existsb (same_text x) l') && distinct l'
  end.

(** [re.compile(pattern)]. *)
Definition parse (pattern : string) : regex + failure :=
  match tokens (List.length (decode pattern)) (decode pattern) with
  | inr f => inr f
  | inl ts =>
      if distinct (names ts) then pattern_of ts (mkFrame [] []) []
      else inr (Invalid "redefinition of group name")
  end.

(** [compile] as [find] calls it: the pattern, or the reason it has
    none.  A pattern outside the model has none either, and the reason
    says so. *)
Definition compile (pattern : string) : regex + string :=
  match parse pattern with
  | inl r => inl r
  | inr (Invalid reason) => inr reason
  | inr (Unsupported what) => inr ("outside the model: " ++ what)%string
  end.

(** The engine [find] is run with.  The spec does not say which of the
    three ways of applying a pattern [find] takes: there is an engine
    for each, and [engine] is the one of [re.search]. *)
Definition engine_of (h : how) : Rsparam.Engine := Rsparam.mkEngine regex compile (run h).

Definition engine : Rsparam.Engine := engine_of Search.

End Re.

(* ===================================================================== *)
(** * cli.py *)
(* ===================================================================== *)

Module Cli.
Import Py Rsparam.

(** The dictionary docopt returns, one field per key [cli.py] reads.
    Flags and commands are booleans ([params_only] is [--params],
    [groups_only] is [--groups], [cmd_list] is [list], and so on);
    [--encode] and [--sortby] have defaults and are strings; an option or
    positional argument that the matched usage pattern does not bind is
    [None]. *)
Record Args : Type := mkArgs {
  quiet : bool;
  encode : string;
  all : bool;
  params_only : bool;
  groups_only : bool;
  sortby : string;
  columns : option string;
  filter : option string;
  byname : bool;
  first : bool;
  second : bool;
  cmd_list : bool;
  cmd_find : bool;
  cmd_dupl : bool;
  cmd_comp : bool;
  cmd_merge : bool;
  cmd_sort : bool;
  src_file : option string;
  regex_pattern : option string;
  first_file : option string;
  second_file : option string;
  dest_file : option string;
  src_files : list string
}.

Definition of_opt (o : option string) : value :=
  match o with
  | Some s => VStr s
  | None => VNone
  end.

(** Truth value of an optional string: [None] and [''] are false. *)
Definition truthy (o : option string) : bool :=
  match o with
  | Some s => negb (String.eqb s "")
  | None => false
  end.

(** [colorful.yellow], [colorful.blue]: the text with a colour attached. *)
Inductive colour : Type := Plain | Yellow | Blue.

(** What reaches standard output: a [print] of a message, or a [print] of
    [tabulate(rows, headers=...)], whose layout belongs to tabulate. *)
Inductive event : Type :=
| Print (c : colour) (text : string)
| PrintTable (rows : list tuple) (headers : list string).

(** A command: the output so far and how it ended. *)
Definition cli (A : Type) : Type := list event * result exn A.

Definition ret {A} (a : A) : cli A := ([], Returns a).
Definition raise {A} (e : exn) : cli A := ([], Raises e).
Definition emit (e : event) : cli unit := ([e], Returns tt).
Definition lift {A} (r : result exn A) : cli A := ([], r).

Definition seq {A B} (m : cli A) (k : A -> cli B) : cli B :=
  match snd m with
  | Returns a => ((fst m ++ fst (k a))%list, snd (k a))
  | Raises e => (fst m, Raises e)
  end.

Notation "x <- m ;; k" := (seq m (fun x => k))
  (at level 61, m at next level, right associativity).
Notation "m ;; k" := (seq m (fun _ => k))
  (at level 61, right associativity).

(** [for x in l: body x] *)
Fixpoint for_each {A} (l : list A) (body : A -> cli unit) : cli unit :=
  match l with
  | [] => ret tt
  | x :: t => body x ;; for_each t body
  end.

(** The functions of the library the front end calls.  A call can raise
    (a missing file, undecodable bytes); the front end catches nothing. *)
Record Library : Type := mkLibrary {
  get_params : value -> option string -> result exn (list Param.t);
  get_paramgroups : value -> string -> result exn (list Group.t);
  find_duplicates : value -> bool -> result exn (Entries (list Group.t) (list Param.t));
  find : value -> value -> string -> result exn (Entries Group.t Param.t);
  compare : value -> value -> string
            -> result exn (Entries Group.t Param.t * Entries Group.t Param.t)
}.

(** [getattr(sp, attr, None)] on a parameter: one of its fields, or an
    attribute every instance has; what else its class may define is not
    known here. *)
Definition param_getattr (sp : Param.t) (attr : string) : value :=
  if String.eqb attr "guid" then VStr (Param.guid sp)
  else if String.eqb attr "name" then VStr (Param.name sp)
  else if String.eqb attr "datatype" then VStr (Param.datatype sp)
  else if String.eqb attr "group" then VInt (Param.group sp)
  else if String.eqb attr "data_category" then VStr (Param.data_category sp)
  else if String.eqb attr "visible" then VStr (Param.visible sp)
  else if String.eqb attr "description" then VStr (Param.description sp)
  else if String.eqb attr "user_modifiable" then VStr (Param.user_modifiable sp)
  else if String.eqb attr "lineno" then VInt (Param.lineno sp)
  else object_getattr attr VNone.

(** [getattr(spg, attr, None)] on a group, likewise. *)
Definition group_getattr (spg : Group.t) (attr : string) : value :=
  if String.eqb attr "guid" then VInt (Group.guid spg)
  else if String.eqb attr "name" then VStr (Group.name spg)
  else if String.eqb attr "lineno" then VInt (Group.lineno spg)
  else object_getattr attr VNone.

Section Commands.
Variable rsparam : Library.
Variable args : Args.

Definition report (c : colour) (message : string) : cli unit :=
  if quiet args then ret tt else emit (Print c message).

Definition report_globals : cli unit :=
  let enc_report :=
    if negb (String.eqb (encode args) "")
    then "encoding=" ++ encode args
    else "encoding not set" in
  report Yellow enc_report.

Definition report_filenames (sparam_files : value) (title : string)
           (colorfunc : colour) : cli unit :=
  let sparam_files :=
    match sparam_files with
    | VStrs l => map VStr l
    | v => [v]
    end in
  for_each sparam_files (fun sparam_file =>
    report colorfunc (title ++ str sparam_file)).

Definition param_columns : list string :=
  if truthy (columns args)
  then match columns args with
       | Some c => split ":"%char c
       | None => []
       end
  else ["guid"; "name"; "datatype"; "group"; "lineno"].

Definition param_row (attrs : list string) (sp : Param.t) : tuple :=
  map (param_getattr sp) attrs.

Definition params_headers : list string :=
  ["Guid"; "Name"; "Datatype"; "Group"; "Line #"].

Definition list_params (src_file : value) (sparams : option (list Param.t))
  : cli unit :=
  sparams <- match sparams with
             | Some (sp :: l) => ret (sp :: l)
             | _ => lift (get_params rsparam src_file (filter args))
             end ;;
  let sparamattrs := param_columns in
  let sparamdata := map (param_row sparamattrs) sparams in
  sparamdata <- (if String.eqb (sortby args) "group"
                 then lift (sorted value_lt
                              (fun x => tuple_getattr x "name" (VInt 0))
                              sparamdata)
                 else ret sparamdata) ;;
  emit (PrintTable sparamdata params_headers) ;;
  report Plain ("Total of " ++ str_of_nat (List.length sparamdata) ++ " items.").

Definition group_columns : list string :=
  if truthy (columns args)
  then match columns args with
       | Some c => split ":"%char c
       | None => []
       end
  else ["guid"; "name"; "lineno"].

Definition group_row (attrs : list string) (spg : Group.t) : tuple :=
  map (group_getattr spg) attrs.

Definition groups_headers : list string := ["Id"; "Description"; "Line #"].

Definition list_groups (src_file : value) (spgroups : option (list Group.t))
  : cli unit :=
  spgroups <- match spgroups with
              | Some (g :: l) => ret (g :: l)
              | _ => lift (get_paramgroups rsparam src_file (encode args))
              end ;;
  let sgroupattrs := group_columns in
  let spgroupdata := map (group_row sgroupattrs) spgroups in
  emit (PrintTable spgroupdata groups_headers) ;;
  report Plain ("Total of " ++ str_of_nat (List.length spgroupdata) ++ " items.").

Definition list_all (src_file : value) : cli unit :=
  list_groups src_file None ;;
  list_params src_file None.

(** Rows of the duplicate tables: a 5-tuple for a parameter, a 3-tuple
    for a group. *)
Definition row5 : Type := value * value * value * value * value.
Definition row3 : Type := value * value * value.

Definition tuple_of5 (x : row5) : tuple :=
  let '(a, b, c, d, e) := x in [a; b; c; d; e].
Definition tuple_of3 (x : row3) : tuple :=
  let '(a, b, c) := x in [a; b; c].

(** [x[0]] and [x[3]] on a 5-tuple, [x[0]] on a 3-tuple. *)
Definition item0_5 (x : row5) : value := let '(a, _, _, _, _) := x in a.
Definition item3_5 (x : row5) : value := let '(_, _, _, d, _) := x in d.
Definition item0_3 (x : row3) : value := let '(a, _, _) := x in a.

(** [l[0]] on a list. *)
Definition first_item {A} (l : list A) : cli A :=
  match l with
  | x :: _ => ret x
  | [] => raise IndexError
  end.

Definition duplparam : string := if byname args then "name" else "guid".

Definition param_dupl_row (d : Param.t) : row5 :=
  (if byname args then VStr (Param.name d) else VStr (Param.guid d),
   if byname args then VStr (Param.guid d) else VStr (Param.name d),
   VStr (Param.datatype d), VInt (Param.group d), VInt (Param.lineno d)).

Definition param_dupl_headers : list string :=
  [if byname args then "Name" else "Guid";
   if byname args then "Guid" else "Name";
   "Datatype"; "Group"; "Line #"].

Definition dupl_banner (v : value) : string :=
  nl ++ "duplicates by " ++ duplparam ++ ": " ++ str v.

(** The body of [for dlist in spentries.params], with the list
    [dupldata] it reads and rebinds passed along. *)
Fixpoint param_dupl_loop (dlists : list (list Param.t)) (dupldata : list row5)
  : cli unit :=
  match dlists with
  | [] => ret tt
  | dlist :: rest =>
      let dupldata := (dupldata ++ map param_dupl_row dlist)%list in
      r0 <- first_item dupldata ;;
      emit (Print Yellow (dupl_banner (item0_5 r0))) ;;
      dupldata <- (if String.eqb (sortby args) "group"
                   then lift (sorted value_lt
                                (fun x => VStr (str (item3_5 x))) dupldata)
                   else ret dupldata) ;;
      emit (PrintTable (map tuple_of5 dupldata) param_dupl_headers) ;;
      param_dupl_loop rest dupldata
  end.

Definition find_param_dupls (src_file : value) : cli unit :=
  spentries <- lift (find_duplicates rsparam src_file (byname args)) ;;
  report Yellow (nl ++ "duplicate params by " ++ duplparam ++ ":") ;;
  param_dupl_loop (params spentries) [].

Definition group_dupl_row (d : Group.t) : row3 :=
  (if byname args then VStr (Group.name d) else VInt (Group.guid d),
   if byname args then VInt (Group.guid d) else VStr (Group.name d),
   VInt (Group.lineno d)).

Definition group_dupl_headers : list string :=
  [if byname args then "Name" else "Guid";
   if byname args then "Guid" else "Name";
   "Line #"].

Fixpoint group_dupl_loop (dlists : list (list Group.t)) (dupldata : list row3)
  : cli unit :=
  match dlists with
  | [] => ret tt
  | dlist :: rest =>
      let dupldata := (dupldata ++ map group_dupl_row dlist)%list in
      r0 <- first_item dupldata ;;
      emit (Print Yellow (dupl_banner (item0_3 r0))) ;;
      emit (PrintTable (map tuple_of3 dupldata) group_dupl_headers) ;;
      group_dupl_loop rest dupldata
  end.

Definition find_group_dupls (src_file : value) : cli unit :=
  spentries <- lift (find_duplicates rsparam src_file (byname args)) ;;
  report Yellow (nl ++ "duplicate groups by " ++ duplparam ++ ":") ;;
  group_dupl_loop (groups spentries) [].

Definition find_all_dupls (src_file : value) : cli unit :=
  find_group_dupls src_file ;;
  find_param_dupls src_file.

Definition nonempty {A} (l : list A) : bool :=
  match l with
  | [] => false
  | _ :: _ => true
  end.

Definition when (b : bool) (m : cli unit) : cli unit := if b then m else ret tt.

Definition find_matching (src_file : value) : cli unit :=
  let search_str := of_opt (regex_pattern args) in
  spentries <- lift (find rsparam src_file search_str (encode args)) ;;
  when (nonempty (groups spentries) && negb (params_only args))
    (report Yellow (nl ++ "groups matching: " ++ str search_str) ;;
     list_groups VNone (Some (groups spentries))) ;;
  when (nonempty (params spentries) && negb (groups_only args))
    (report Yellow (nl ++ "params matching: " ++ str search_str) ;;
     list_params VNone (Some (params spentries))).

Definition comp (first_file second_file : value) : cli unit :=
  u <- lift (compare rsparam first_file second_file (encode args)) ;;
  let uniq1 := fst u in
  let uniq2 := snd u in
  when (nonempty (groups uniq1) && negb (params_only args) && negb (second args))
    (report Yellow (nl ++ "unique groups in first") ;;
     list_groups VNone (Some (groups uniq1))) ;;
  when (nonempty (groups uniq2) && negb (params_only args) && negb (first args))
    (report Yellow (nl ++ "unique groups in second") ;;
     list_groups VNone (Some (groups uniq2))) ;;
  when (nonempty (params uniq1) && negb (groups_only args) && negb (second args))
    (report Yellow (nl ++ "unique parameters in first") ;;
     list_params VNone (Some (params uniq1))) ;;
  when (nonempty (params uniq2) && negb (groups_only args) && negb (first args))
    (report Yellow (nl ++ "unique parameters in second") ;;
     list_params VNone (Some (params uniq2))).

(** [def merge(dest_file, source_files): raise NotImplementedError()] *)
Definition merge : list value -> list (string * value) -> result exn value :=
  call ["dest_file"; "source_files"] (fun _ => Raises NotImplementedError).

(** [def sort(source_file): raise NotImplementedError()] *)
Definition sort : list value -> list (string * value) -> result exn value :=
  call ["source_file"] (fun _ => Raises NotImplementedError).

Definition main : cli unit :=
  report_globals ;;
  (if cmd_list args then
     let src_file := of_opt (src_file args) in
     report_filenames src_file "source file: " Blue ;;
     if groups_only args && negb (params_only args) then
       list_groups src_file None
     else if params_only args && negb (groups_only args) then
       list_params src_file None
     else
       list_all src_file
   else if cmd_find args then
     let src_file := of_opt (src_file args) in
     report_filenames src_file "source file: " Blue ;;
     if cmd_dupl args then
       if all args then find_all_dupls src_file
       else if params_only args then find_param_dupls src_file
       else if groups_only args then find_group_dupls src_file
       else ret tt
     else
       find_matching src_file
   else if cmd_comp args then
     let first_file := of_opt (first_file args) in
     report_filenames first_file "first file: " Blue ;;
     let second_file := of_opt (second_file args) in
     report_filenames second_file "second file: " Blue ;;
     comp first_file second_file
   else if cmd_merge args then
     let dest_file := of_opt (dest_file args) in
     report_filenames dest_file "destination file: " Blue ;;
     let src_files := VStrs (src_files args) in
     report_filenames src_files "source file: " Blue ;;
     _ <- lift (merge [dest_file; src_files] []) ;;
     ret tt
   else if cmd_sort args then
     let source_file := of_opt (src_file args) in
     report_filenames source_file "source file: " Blue ;;
     _ <- lift (sort [source_file] [("byname", VBool (byname args))]) ;;
     ret tt
   else ret tt) ;;
  report Plain "".
End Commands.

End Cli.

(* ===================================================================== *)
(** * Vocabulary of the statements *)
(* ===================================================================== *)

Import Py Rsparam Cli.

(** ** What a command printed *)

(** The file names [report_filenames] goes through. *)
Definition file_names (sparam_files : value) : list value :=
  match sparam_files with
  | VStrs l => map VStr l
  | v => [v]
  end.

(** The line [report_globals] prints. *)
Definition encoding_report (args : Args) : string :=
  if negb (String.eqb (encode args) "")
  then "encoding=" ++ encode args
  else "encoding not set".

(** What [main] prints before it calls [merge] or [sort]. *)
Definition preamble (args : Args) (lines : list event) : list event :=
  if quiet args then [] else Print Yellow (encoding_report args) :: lines.

(** The tables a command printed, in order. *)
Definition printed_tables (out : list event) : list (list tuple) :=
  flat_map (fun e => match e with PrintTable rows _ => [rows] | Print _ _ => [] end) out.

(** The yellow lines a command printed, in order. *)
Definition printed_banners (out : list event) : list string :=
  flat_map (fun e => match e with Print Yellow text => [text] | _ => [] end) out.

(** ** The list command *)

(** The parameters [list_params] shows: the ones it was given, or the
    ones of the file when it was given none. *)
Definition listed_params (rsparam : Library) (args : Args) (src_file : value)
           (sparams : option (list Param.t)) : result exn (list Param.t) :=
  match sparams with
  | Some (sp :: l) => Returns (sp :: l)
  | _ => get_params rsparam src_file (filter args)
  end.

(** The claim that the list command shows its rows by name: the table
    holds the rows of the parameters in ascending order of name. *)
Definition shown_by_name (sparams : list Param.t) (out : list event) : Prop :=
  exists ordered,
    sorted value_lt (fun sp => VStr (Param.name sp)) sparams = Returns ordered
    /\ printed_tables out
       = [map (param_row ["guid"; "name"; "datatype"; "group"; "lineno"]) ordered].

(** ** The duplicate tables *)

(** The running concatenations of a list of lists: the first list, the
    first two, and so on, each in front of [buf]. *)
Fixpoint accumulate {A} (buf : list A) (dls : list (list A)) : list (list A) :=
  match dls with
  | [] => []
  | d :: rest => (buf ++ d)%list :: accumulate (buf ++ d)%list rest
  end.

(** The first record of the first list of duplicates. *)
Definition first_record {A} (dls : list (list A)) : option A :=
  match dls with
  | (d :: _) :: _ => Some d
  | _ => None
  end.

(** The first cell of the first record's row: the first key. *)
Definition param_first_key (args : Args) (dls : list (list Param.t)) : value :=
  match first_record dls with
  | Some d => item0_5 (param_dupl_row args d)
  | None => VNone
  end.

Definition group_first_key (args : Args) (dls : list (list Group.t)) : value :=
  match first_record dls with
  | Some d => item0_3 (group_dupl_row args d)
  | None => VNone
  end.

(** One banner and one table per list of duplicates: the banner of the
    cell [k], the table of the records accumulated so far. *)
Definition param_dupl_report (args : Args) (k : value) (dls : list (list Param.t))
  : list event :=
  flat_map (fun acc => [Print Yellow (dupl_banner args k);
                        PrintTable (map tuple_of5 (map (param_dupl_row args) acc))
                                   (param_dupl_headers args)])
           (accumulate [] dls).

Definition group_dupl_report (args : Args) (k : value) (dls : list (list Group.t))
  : list event :=
  flat_map (fun acc => [Print Yellow (dupl_banner args k);
                        PrintTable (map tuple_of3 (map (group_dupl_row args) acc))
                                   (group_dupl_headers args)])
           (accumulate [] dls).

(** The first cell of the first row of a table. *)
Definition head_cell (rows : list row5) : value :=
  match rows with
  | r :: _ => item0_5 r
  | [] => VNone
  end.

(** One banner and one table per table of [tables]: the first banner
    shows the cell [k], each later banner the first cell of the table
    printed before it. *)
Fixpoint chained_dupl_report (args : Args) (k : value) (tables : list (list row5))
  : list event :=
  match tables with
  | [] => []
  | t :: rest =>
      Print Yellow (dupl_banner args k)
      :: PrintTable (map tuple_of5 t) (param_dupl_headers args)
      :: chained_dupl_report args (head_cell t) rest
  end.

(** The key of [sorted(dupldata, key=lambda x: str(x[3]))]. *)
Definition group_sort_key (x : row5) : value := VStr (str (item3_5 x)).

(** [a] may stand before [b] in a sorted list: the key of [b] is not
    smaller than the key of [a]. *)
Definition in_order {A K} (lt : K -> K -> option bool) (key : A -> K) (a b : A) : Prop :=
  lt (key b) (key a) = Some false.

(** Rows in ascending order of [str(group)]. *)
Definition by_group_text (rows : list row5) : Prop :=
  Sorted (in_order value_lt group_sort_key) rows.

(** The claim that every banner shows the first key. *)
Definition banners_show_first_key (args : Args) (dls : list (list Param.t))
           (out : list event) : Prop :=
  Forall (fun text => text = dupl_banner args (param_first_key args dls))
         (printed_banners out).

(** ** The core *)

(** The members filed under [k] in a dictionary of lists. *)
Fixpoint lookup {A} (k : key) (d : list (key * list A)) : option (list A) :=
  match d with
  | [] => None
  | (k', xs) :: d' => if key_eqb k k' then Some xs else lookup k d'
  end.

(** The records of [l] whose key is [k], in the order of [l]. *)
Definition with_key {A} (key_of : A -> key) (k : key) (l : list A) : list A :=
  List.filter (fun x => key_eqb (key_of x) k) l.




(** A string out of its bytes. *)
Definition bytes (l : list nat) : string := string_of_list_ascii (map ascii_of_nat l).

(** What [re.search], [re.match] and [re.fullmatch] answer for a pattern
    and a name. *)
Definition applied (pattern name : string) : option (bool * bool * bool) :=
  match Re.parse pattern with
  | inl r => Some (Re.run Re.Search r name, Re.run Re.Match r name,
                   Re.run Re.Fullmatch r name)
  | inr _ => None
  end.

Definition agrees (row : string * string * (bool * bool * bool)) : bool :=
  match applied (fst (fst row)) (snd (fst row)) with
  | Some (s, m, f) =>
      Bool.eqb s (fst (fst (snd row))) && Bool.eqb m (snd (fst (snd row)))
      && Bool.eqb f (snd (snd row))
  | None => false
  end.

(** [re.compile] raises [re.error]; [re.compile] returns. *)
Definition refused (pattern : string) : bool :=
  match Re.parse pattern with
  | inr (Re.Invalid _) => true
  | _ => false
  end.

Definition accepted (pattern : string) : bool :=
  match Re.parse pattern with
  | inl _ => true
  | inr _ => false
  end.

(** ** A library that serves files from memory *)

Definition open_file (files : list (string * File)) (src_file : value) : result exn File :=
  match src_file with
  | VStr path =>
      match List.find (fun kv => String.eqb (fst kv) path) files with
      | Some kv => Returns (snd kv)
      | None => Raises (LibraryError "FileNotFoundError")
      end
  | _ => Raises (LibraryError "TypeError")
  end.

(** Modelled from the spec: the library is imported by [cli.py].  Each
    function opens the named file among [files] and applies the
    operation of the core; [get_params] keeps the parameters whose group
    id reads as the filter. *)
Definition library_of (files : list (string * File)) : Library :=
  mkLibrary
    (fun src_file groupid =>
       bind (open_file files src_file) (fun f =>
       Returns (match groupid with
                | None => params f
                | Some g => List.filter (fun p => String.eqb (str_of_Z (Param.group p)) g)
                                        (params f)
                end)))
    (fun src_file _ => bind (open_file files src_file) (fun f => Returns (groups f)))
    (fun src_file by_name =>
       bind (open_file files src_file) (fun f =>
       let ds := Rsparam.find_duplicates f by_name in
       Returns (mkEntries (map snd (groups ds)) (map snd (params ds)))))
    (fun src_file pattern _ =>
       bind (open_file files src_file) (fun f =>
       match Rsparam.find Re.engine f (str pattern) with
       | Returns r => Returns r
       | Raises _ => Raises (LibraryError "PatternError")
       end))
    (fun first_file second_file _ =>
       bind (open_file files first_file) (fun a =>
       bind (open_file files second_file) (fun b =>
       Returns (Rsparam.compare a b false)))).

(** ** Sample data *)

Definition sample_param (guid name : string) (group line : Z) : Param.t :=
  Param.mk guid name "LENGTH" group "" "1" "" "1" line.

(** Two parameters, the later one first by name. *)
Definition two_params_file : File :=
  mkEntries
    [Group.mk 1 "Doors" 2; Group.mk 2 "Windows" 3]
    [sample_param "00000000-0000-0000-0000-00000000000a" "Width" 1 5;
     sample_param "00000000-0000-0000-0000-00000000000b" "Height" 2 6].

(** Three GUIDs, each declared twice, in groups 2, 1 and 3; and three
    groups with the id 3. *)
Definition duplicated_file : File :=
  mkEntries
    [Group.mk 1 "Doors" 2; Group.mk 2 "Windows" 3; Group.mk 3 "Walls" 4;
     Group.mk 3 "Roofs" 5; Group.mk 3 "Floors" 6]
    [sample_param "00000000-0000-0000-0000-00000000000a" "Width" 2 7;
     sample_param "00000000-0000-0000-0000-00000000000a" "Width bis" 2 8;
     sample_param "00000000-0000-0000-0000-00000000000b" "Height" 1 9;
     sample_param "00000000-0000-0000-0000-00000000000b" "Height bis" 1 10;
     sample_param "00000000-0000-0000-0000-00000000000c" "Depth" 3 11;
     sample_param "00000000-0000-0000-0000-00000000000c" "Depth bis" 3 12].

Definition sample_library : Library :=
  library_of [("two.txt", two_params_file); ("dupl.txt", duplicated_file)].

(** [rsparam list -p -s group two.txt] *)
Definition list_by_group_args : Args :=
  mkArgs false "utf-8" false true false "group" None None false false false
         true false false false false false (Some "two.txt") None None None None [].

(** [rsparam -q find dupl -p -s group dupl.txt] *)
Definition dupl_by_group_args : Args :=
  mkArgs true "utf-8" false true false "group" None None false false false
         false true true false false false (Some "dupl.txt") None None None None [].

(** [rsparam find dupl -a dupl.txt] *)
Definition dupl_args : Args :=
  mkArgs false "utf-8" true false false "name" None None false false false
         false true true false false false (Some "dupl.txt") None None None None [].

(** [rsparam sort -n two.txt] *)
Definition sort_args : Args :=
  mkArgs false "utf-8" false false false "name" None None true false false
         false false false false false true (Some "two.txt") None None None None [].

(** [rsparam merge merged.txt two.txt dupl.txt] *)
Definition merge_args : Args :=
  mkArgs false "utf-8" false false false "name" None None false false false
         false false false false true false None None None None
         (Some "merged.txt") ["two.txt"; "dupl.txt"].

(** ** Listings and their titles *)

(** The closing line of a listing. *)
Definition total_line (args : Args) (n : nat) : list event :=
  if quiet args then []
  else [Print Plain ("Total of " ++ str_of_nat n ++ " items.")].

(** What [list_params] prints for the parameters [ps]: their table, one
    row each, and the total. *)
Definition params_listing (args : Args) (ps : list Param.t) : list event :=
  PrintTable (map (param_row (param_columns args)) ps) params_headers
  :: total_line args (List.length ps).

(** What [list_groups] prints for the groups [gs]. *)
Definition groups_listing (args : Args) (gs : list Group.t) : list event :=
  PrintTable (map (group_row (group_columns args)) gs) groups_headers
  :: total_line args (List.length gs).

(** A listing under a yellow title, when [shown]. *)
Definition titled (args : Args) (shown : bool) (title : string) (listing : list event)
  : list event :=
  if shown
  then ((if quiet args then [] else [Print Yellow title]) ++ listing)%list
  else [].

(** The number of occurrences of a character in a text. *)
Fixpoint count_char (c : ascii) (s : string) : nat :=
  match s with
  | EmptyString => O
  | String d rest => (if Ascii.eqb d c then 1 else 0) + count_char c rest
  end.

(** The number of cells of a row: one per name of [--columns], that is
    one more than the option has colons, or [default] without it. *)
Definition row_width (args : Args) (default : nat) : nat :=
  match columns args with
  | Some c => if String.eqb c "" then default else S (count_char ":" c)
  | None => default
  end.

(** ** What is left of the output in quiet mode *)

(** A table, or the banner of a key of the duplicate tables: the output
    that does not go through [report]. *)
Definition printed_not_reported (args : Args) (e : event) : Prop :=
  match e with
  | PrintTable _ _ => True
  | Print c text => c = Yellow /\ exists v, text = dupl_banner args v
  end.

(** ** Where an exception comes from *)

(** [e] is raised by a call of the library. *)
Definition library_raises (rsparam : Library) (e : exn) : Prop :=
  (exists src groupid, get_params rsparam src groupid = Raises e)
  \/ (exists src encoding, get_paramgroups rsparam src encoding = Raises e)
  \/ (exists src by_name, find_duplicates rsparam src by_name = Raises e)
  \/ (exists src pattern encoding, find rsparam src pattern encoding = Raises e)
  \/ (exists a b encoding, compare rsparam a b encoding = Raises e).

(** The exceptions a run can end in. *)
Definition expected_exception (rsparam : Library) (e : exn) : Prop :=
  library_raises rsparam e
  \/ e = TypeError (UnexpectedKeyword "byname")
  \/ e = NotImplementedError
  \/ e = IndexError.

(** Every exception a command can end in satisfies [P]. *)
Definition raises_only {A} (P : exn -> Prop) (m : cli A) : Prop :=
  forall e, snd m = Raises e -> P e.

(** ** Sorting once *)

(** The stable insertion sort for an order on the items themselves. *)
Fixpoint insert_by {A} (ltb : A -> A -> bool) (x : A) (l : list A) : list A :=
  match l with
  | [] => [x]
  | h :: t => if ltb h x then h :: insert_by ltb x t else x :: h :: t
  end.

Definition sort_by {A} (ltb : A -> A -> bool) (l : list A) : list A :=
  fold_right (insert_by ltb) [] l.

(** A row comes before another when its [str(group)] is smaller. *)
Definition group_text_ltb (a b : row5) : bool :=
  String.ltb (str (item3_5 a)) (str (item3_5 b)).

(* ===================================================================== *)
(** * Theorems *)
(* ===================================================================== *)

(** ** Calls and commands *)

(** A function whose body raises never returns, however it is called. *)
Lemma call_raising_raises {R} (params : list string) (e : exn)
      (pos : list value) (kw : list (string * value)) :
  exists e', call (R := R) params (fun _ => Raises e) pos kw = Raises e'.
Proof.
  unfold call. destruct (bind_args params pos kw); simpl; eauto.
Qed.

Lemma seq_pure {A B} (a : A) (k : A -> cli B) : seq ([], Returns a) k = k a.
Proof. unfold seq. simpl. destruct (k a); reflexivity. Qed.

Lemma seq_emit {B} (e : event) (k : unit -> cli B) :
  seq (emit e) k = (e :: fst (k tt), snd (k tt)).
Proof. reflexivity. Qed.

Lemma for_each_returns {A} (l : list A) (body : A -> cli unit) :
  (forall x, snd (body x) = Returns tt) ->
  for_each l body = (flat_map (fun x => fst (body x)) l, Returns tt).
Proof.
  intros Hbody. induction l as [|x l IH]; simpl; [reflexivity|].
  unfold seq. rewrite Hbody, IH. reflexivity.
Qed.

Lemma report_eq (args : Args) (c : colour) (m : string) :
  report args c m = (if quiet args then [] else [Print c m], Returns tt).
Proof. unfold report. destruct (quiet args); reflexivity. Qed.

Lemma report_filenames_eq (args : Args) (files : value) (title : string) (c : colour) :
  report_filenames args files title c =
  (if quiet args then [] else map (fun f => Print c (title ++ str f)) (file_names files),
   Returns tt).
Proof.
  unfold report_filenames. fold (file_names files).
  rewrite for_each_returns by (intros; rewrite report_eq; reflexivity).
  f_equal. unfold report. destruct (quiet args); simpl.
  - induction (file_names files); simpl; auto.
  - induction (file_names files); simpl; congruence.
Qed.

Lemma flat_map_map {A B C} (f : B -> list C) (g : A -> B) (l : list A) :
  flat_map f (map g l) = flat_map (fun x => f (g x)) l.
Proof. induction l as [|x l IH]; simpl; [reflexivity|]. rewrite IH. reflexivity. Qed.

Lemma Forall2_map_right {A B C} (P : A -> C -> Prop) (f : B -> C)
      (l : list A) (l' : list B) :
  Forall2 (fun a b => P a (f b)) l l' -> Forall2 P l (map f l').
Proof. induction 1; simpl; constructor; assumption. Qed.

(** ** The sort and merge commands *)

(** C4.  Every run of the sort command ends in a [TypeError], raised
    when [main] calls [sort(source_file, byname=...)]: [sort] takes one
    positional parameter and knows no keyword [byname].  Only the
    encoding and the file name have been printed by then, the body of
    [sort] is not entered, and the run does not end in the
    [NotImplementedError] of that body. *)
Theorem sort_command_raises_TypeError (rsparam : Library) (args : Args) :
  cmd_list args = false -> cmd_find args = false -> cmd_comp args = false ->
  cmd_merge args = false -> cmd_sort args = true ->
  main rsparam args =
    (preamble args [Print Blue ("source file: " ++ str (of_opt (src_file args)))],
     Raises (TypeError (UnexpectedKeyword "byname")))
  /\ (forall source_file flag : value,
         sort [source_file] [("byname", flag)]
         = Raises (TypeError (UnexpectedKeyword "byname")))
  /\ snd (main rsparam args) <> Raises NotImplementedError.
Proof.
  intros Hl Hf Hc Hm Hs.
  assert (Hmain : main rsparam args =
    (preamble args [Print Blue ("source file: " ++ str (of_opt (src_file args)))],
     Raises (TypeError (UnexpectedKeyword "byname")))).
  { unfold main. rewrite Hl, Hf, Hc, Hm, Hs.
    unfold report_globals. fold (encoding_report args).
    rewrite !report_eq, report_filenames_eq.
    unfold preamble, seq; simpl. destruct (src_file args), (quiet args); reflexivity. }
  split; [exact Hmain|]. split; [reflexivity|].
  rewrite Hmain. simpl. discriminate.
Qed.

Lemma sort_command_raises_TypeError_witness :
  main sample_library sort_args =
    ([Print Yellow "encoding=utf-8"; Print Blue "source file: two.txt"],
     Raises (TypeError (UnexpectedKeyword "byname"))).
Proof.
  exact (proj1 (sort_command_raises_TypeError sample_library sort_args
                  eq_refl eq_refl eq_refl eq_refl eq_refl)).
Defined.

(** C1, as amended.  [merge(dest_file, source_files)] raises
    [NotImplementedError] for every destination and every list of source
    files, and no call of [merge] returns: there is no merged file, no
    list of warnings, no resolution of conflicts.  A run of the merge
    command prints the encoding and the file names and ends in that
    [NotImplementedError]. *)
Theorem merge_is_unimplemented (rsparam : Library) (args : Args) :
  (forall dest_file source_files : value,
      merge [dest_file; source_files] [] = Raises NotImplementedError)
  /\ (forall pos kw, exists e, merge pos kw = Raises e)
  /\ (cmd_list args = false -> cmd_find args = false -> cmd_comp args = false ->
      cmd_merge args = true ->
      main rsparam args =
        (preamble args
           (Print Blue ("destination file: " ++ str (of_opt (dest_file args)))
            :: map (fun f => Print Blue ("source file: " ++ f)) (src_files args)),
         Raises NotImplementedError)).
Proof.
  split; [reflexivity|]. split; [intros; apply call_raising_raises|].
  intros Hl Hf Hc Hm. unfold main. rewrite Hl, Hf, Hc, Hm.
  unfold report_globals. fold (encoding_report args).
  rewrite !report_eq, !report_filenames_eq. unfold preamble, seq.
  destruct (dest_file args), (quiet args); cbn [fst snd app file_names of_opt map];
    rewrite ?map_map, ?app_nil_r; reflexivity.
Qed.

Lemma merge_is_unimplemented_witness :
  main sample_library merge_args =
    ([Print Yellow "encoding=utf-8"; Print Blue "destination file: merged.txt";
      Print Blue "source file: two.txt"; Print Blue "source file: dupl.txt"],
     Raises NotImplementedError).
Proof.
  exact (proj2 (proj2 (merge_is_unimplemented sample_library merge_args))
               eq_refl eq_refl eq_refl eq_refl).
Defined.

(** The claim of C1 fails on a merge of two source files: nothing is
    returned. *)
Lemma merge_returns_nothing :
  ~ (exists merged, merge [VStr "merged.txt"; VStrs ["two.txt"; "dupl.txt"]] [] = Returns merged).
Proof. intros [merged H]. discriminate H. Qed.

(** C2, as amended.  [sort(source_file)] raises [NotImplementedError]
    for every source file; called with a sort key, [sort(source_file,
    by=...)], it raises a [TypeError], for it has no such parameter; no
    call of [sort] returns, so no reordered file is produced. *)
Theorem sort_is_unimplemented :
  (forall source_file : value, sort [source_file] [] = Raises NotImplementedError)
  /\ (forall source_file by_ : value,
         sort [source_file] [("by", by_)] = Raises (TypeError (UnexpectedKeyword "by")))
  /\ (forall pos kw, exists e, sort pos kw = Raises e).
Proof.
  split; [reflexivity|]. split; [reflexivity|].
  intros; apply call_raising_raises.
Qed.

(** The claim of C2 fails on its own example, whichever way [sort] is
    called: nothing is returned. *)
Lemma sort_by_group_returns_nothing :
  ~ ((exists sorted_file, sort [VStr "two.txt"] [("by", VStr "group")] = Returns sorted_file)
     \/ (exists sorted_file, sort [VStr "two.txt"] [] = Returns sorted_file)).
Proof. intros [[v H]|[v H]]; discriminate H. Qed.

(** C8, as amended.  For every file [f], [sort(f)] raises
    [NotImplementedError], and so does [sort(sort(f))], whose inner call
    raises before the outer one begins; with any keywords the two
    expressions end in the same exception.  Neither yields a file. *)
Theorem sort_twice_raises_like_sort_once (f : value) :
  sort [f] [] = Raises NotImplementedError
  /\ bind (sort [f] []) (fun f' => sort [f'] []) = Raises NotImplementedError
  /\ (forall kw, bind (sort [f] kw) (fun f' => sort [f'] kw) = sort [f] kw)
  /\ (forall kw, exists e, sort [f] kw = Raises e).
Proof.
  assert (H : forall kw, exists e, sort [f] kw = Raises e)
    by (intros; apply call_raising_raises).
  repeat split; try reflexivity; [|exact H].
  intros kw. destruct (H kw) as [e ->]. reflexivity.
Qed.

(** The claim of C8 fails: sorting by name has no result that sorting
    again could leave unchanged. *)
Lemma sort_by_name_has_no_result :
  ~ (exists once, sort [VStr "two.txt"] [] = Returns once
                  /\ bind (sort [VStr "two.txt"] []) (fun f' => sort [f'] []) = Returns once).
Proof. intros [once [H _]]. discriminate H. Qed.

(** ** [sorted] *)

Section SortedFacts.
Context {A K : Type}.
Variable lt : K -> K -> option bool.
Variable key : A -> K.

(** When every item has the same key, not smaller than itself, the
    order is kept. *)
Lemma sorted_constant_key (k0 : K) (l : list A) :
  lt k0 k0 = Some false ->
  (forall x, In x l -> key x = k0) ->
  sorted lt key l = Returns l.
Proof.
  intros Hirr. induction l as [|x t IH]; intros Hk; simpl; [reflexivity|].
  rewrite IH by (intros; apply Hk; right; assumption). simpl.
  destruct t as [|h t']; simpl; [reflexivity|].
  rewrite (Hk h), (Hk x), Hirr by (simpl; auto). reflexivity.
Qed.

Lemma insert_permutation (x : A) (l r : list A) :
  insert lt key x l = Returns r -> Permutation (x :: l) r.
Proof.
  revert r. induction l as [|h t IH]; simpl; intros r H.
  - injection H as <-. apply Permutation_refl.
  - destruct (lt (key h) (key x)) as [[|]|]; try discriminate.
    + destruct (insert lt key x t) as [r'|] eqn:E; simpl in H; try discriminate.
      injection H as <-. rewrite perm_swap. apply perm_skip, IH. reflexivity.
    + injection H as <-. apply Permutation_refl.
Qed.

Lemma sorted_permutation (l r : list A) :
  sorted lt key l = Returns r -> Permutation l r.
Proof.
  revert r. induction l as [|x t IH]; simpl; intros r H.
  - injection H as <-. apply perm_nil.
  - destruct (sorted lt key t) as [t'|] eqn:E; simpl in H; try discriminate.
    apply insert_permutation in H. rewrite <- H. apply perm_skip, IH. reflexivity.
Qed.

(** When any two keys compare, sorting returns. *)
Lemma insert_total (x : A) (l : list A) :
  (forall a b, lt (key a) (key b) <> None) -> exists r, insert lt key x l = Returns r.
Proof.
  intros Htot. induction l as [|h t [r IH]]; simpl; [eauto|].
  destruct (lt (key h) (key x)) as [[|]|] eqn:E.
  - rewrite IH. simpl. eauto.
  - eauto.
  - exfalso. exact (Htot _ _ E).
Qed.

Lemma sorted_total (l : list A) :
  (forall a b, lt (key a) (key b) <> None) -> exists r, sorted lt key l = Returns r.
Proof.
  intros Htot. induction l as [|x t [r IH]]; simpl; [eauto|].
  rewrite IH. simpl. apply insert_total, Htot.
Qed.

(** When [<] is asymmetric on the keys, the result is in order. *)
Hypothesis lt_asym :
  forall a b, lt (key a) (key b) = Some true -> lt (key b) (key a) = Some false.

Lemma insert_sorted (x : A) (l r : list A) :
  Sorted (in_order lt key) l -> insert lt key x l = Returns r ->
  Sorted (in_order lt key) r
  /\ (forall y, HdRel (in_order lt key) y l -> in_order lt key y x ->
                HdRel (in_order lt key) y r).
Proof.
  revert r. induction l as [|h t IH]; simpl; intros r Hs H.
  - injection H as <-. split; [repeat constructor|]. intros; constructor; assumption.
  - destruct (lt (key h) (key x)) as [[|]|] eqn:E; try discriminate.
    + destruct (insert lt key x t) as [r'|] eqn:E'; simpl in H; try discriminate.
      injection H as <-. inversion Hs as [|? ? Hs' Hhd]; subst.
      destruct (IH r' Hs' eq_refl) as [Hr Hh]. split.
      * constructor; [exact Hr|]. apply Hh; [exact Hhd|]. apply lt_asym, E.
      * intros y Hy _. inversion Hy; subst. constructor. assumption.
    + injection H as <-. split.
      * constructor; [exact Hs|]. constructor. exact E.
      * intros y _ Hyx. constructor. exact Hyx.
Qed.

Lemma sorted_in_order (l r : list A) :
  sorted lt key l = Returns r -> Sorted (in_order lt key) r.
Proof.
  revert r. induction l as [|x t IH]; simpl; intros r H.
  - injection H as <-. constructor.
  - destruct (sorted lt key t) as [t'|] eqn:E; simpl in H; try discriminate.
    exact (proj1 (insert_sorted x t' r (IH t' eq_refl) H)).
Qed.
End SortedFacts.

Lemma string_ltb_asym (a b : string) : String.ltb a b = true -> String.ltb b a = false.
Proof.
  unfold String.ltb. rewrite (String.compare_antisym a b).
  destruct (String.compare b a); simpl; congruence.
Qed.

(** Sorting by [str(group)] always returns, and returns the same rows in
    ascending order. *)
Lemma sorted_by_group_text (rows : list row5) :
  exists r, sorted value_lt group_sort_key rows = Returns r
            /\ Permutation rows r /\ by_group_text r.
Proof.
  destruct (sorted_total value_lt group_sort_key rows) as [r Hr]; [discriminate|].
  exists r. split; [exact Hr|]. split; [exact (sorted_permutation _ _ _ _ Hr)|].
  refine (sorted_in_order value_lt group_sort_key _ _ _ Hr).
  intros a b. unfold group_sort_key, value_lt. intros H. injection H as H.
  rewrite (string_ltb_asym _ _ H). reflexivity.
Qed.

(** ** The list command *)

(** C3, a defect of [list_params].  With [--sortby group] the code
    sorts the parameter rows with the key [getattr(row, 'name', 0)], a
    sort by name that misses: a row is a plain tuple, which has no
    attribute [name], so the key is [0] for every row and the stable
    sort moves nothing.  The table shows the rows in the order of the
    parameters listed (the ones handed over, or the ones the library
    returned for the file), ordered neither by name, as the claim has
    it, nor by group, as the option promises. *)
Theorem list_sortby_group_keeps_order (rsparam : Library) (args : Args)
        (src_file : value) (sparams : option (list Param.t)) (shown : list Param.t) :
  sortby args = "group" ->
  listed_params rsparam args src_file sparams = Returns shown ->
  list_params rsparam args src_file sparams =
    (PrintTable (map (param_row (param_columns args)) shown) params_headers
     :: (if quiet args then []
         else [Print Plain ("Total of " ++ str_of_nat (List.length shown) ++ " items.")]),
     Returns tt)
  /\ (forall row, tuple_getattr row "name" (VInt 0) = VInt 0).
Proof.
  intros Hsort Hshown. split; [|reflexivity]. unfold list_params.
  assert (E : (match sparams with
               | Some (sp :: l) => ret (sp :: l)
               | _ => lift (get_params rsparam src_file (filter args))
               end) = ([], Returns shown)).
  { unfold listed_params in Hshown. destruct sparams as [[|sp l]|]; unfold ret, lift; congruence. }
  rewrite E, seq_pure, Hsort. clear E. cbn [String.eqb Ascii.eqb Bool.eqb].
  rewrite (sorted_constant_key value_lt _ (VInt 0)) by (intros; reflexivity).
  unfold lift. rewrite seq_pure.
  unfold seq, emit. cbn [fst snd app]. rewrite report_eq. cbn [fst snd app].
  rewrite length_map. reflexivity.
Qed.

Lemma list_sortby_group_keeps_order_witness :
  list_params sample_library list_by_group_args (VStr "two.txt") None =
    ([PrintTable
        [[VStr "00000000-0000-0000-0000-00000000000a"; VStr "Width"; VStr "LENGTH";
          VInt 1; VInt 5];
         [VStr "00000000-0000-0000-0000-00000000000b"; VStr "Height"; VStr "LENGTH";
          VInt 2; VInt 6]]
        params_headers;
      Print Plain "Total of 2 items."],
     Returns tt).
Proof.
  exact (proj1 (list_sortby_group_keeps_order sample_library list_by_group_args
                  (VStr "two.txt") None (params two_params_file) eq_refl eq_refl)).
Defined.

(** C3 at [rsparam list -p -s group two.txt]: the rows are not in the
    order of the names, Width is shown before Height. *)
Lemma list_sortby_group_not_by_name :
  ~ shown_by_name (params two_params_file)
      (fst (list_params sample_library list_by_group_args (VStr "two.txt") None)).
Proof.
  intros [ordered [Hord Hout]]. vm_compute in Hord. injection Hord as <-.
  vm_compute in Hout. discriminate Hout.
Qed.

(** ** The duplicate tables *)

Lemma accumulate_shift {A} (buf : list A) (dls : list (list A)) :
  accumulate buf dls = map (app buf) (accumulate [] dls).
Proof.
  revert buf. induction dls as [|d rest IH]; intros buf; simpl; [reflexivity|].
  rewrite (IH (buf ++ d)%list), (IH d), map_map. f_equal.
  apply map_ext. intros acc. symmetry. apply app_assoc.
Qed.

Lemma accumulate_length {A} (buf : list A) (dls : list (list A)) :
  List.length (accumulate buf dls) = List.length dls.
Proof.
  revert buf. induction dls as [|d rest IH]; intros buf; simpl; [reflexivity|].
  rewrite IH. reflexivity.
Qed.

(** The [k]-th running concatenation holds the lists 1 to [k]. *)
Lemma accumulate_nth {A} (dls : list (list A)) (k : nat) :
  (k < List.length dls)%nat ->
  nth k (accumulate [] dls) [] = List.concat (firstn (S k) dls).
Proof.
  revert k. induction dls as [|d rest IH]; intros k Hk; simpl in Hk; [lia|].
  destruct k as [|k].
  - simpl. rewrite app_nil_r. reflexivity.
  - cbn [accumulate nth app]. rewrite accumulate_shift.
    rewrite (nth_indep _ [] (d ++ [])%list)
      by (rewrite length_map, accumulate_length; lia).
    rewrite (map_nth (app d)), IH by lia. reflexivity.
Qed.

(** Unfolding one turn of a loop of the front end. *)
Ltac loop_turn :=
  unfold ret, lift; repeat rewrite ?seq_pure, ?seq_emit.

(** The loop over the lists of duplicate groups, entered with a buffer
    that is not empty: every banner shows the first cell of the first
    row, every table shows the buffer and the lists met so far. *)
Lemma group_dupl_loop_from (args : Args) (dls : list (list Group.t))
      (r0 : row3) (buf : list row3) :
  group_dupl_loop args dls (r0 :: buf) =
  (flat_map (fun acc =>
      [Print Yellow (dupl_banner args (item0_3 r0));
       PrintTable (map tuple_of3 ((r0 :: buf) ++ map (group_dupl_row args) acc)%list)
                  (group_dupl_headers args)])
     (accumulate [] dls),
   Returns tt).
Proof.
  revert buf. induction dls as [|d rest IH]; intros buf; [reflexivity|].
  cbn [group_dupl_loop app first_item]. loop_turn. rewrite IH.
  cbn [fst snd accumulate flat_map app].
  rewrite (accumulate_shift d rest), flat_map_map.
  do 3 f_equal.
  apply flat_map_ext. intros acc.
  rewrite map_app, app_assoc. reflexivity.
Qed.

Lemma group_dupl_loop_start (args : Args) (dls : list (list Group.t)) :
  hd_error dls <> Some [] ->
  group_dupl_loop args dls [] =
  (group_dupl_report args (group_first_key args dls) dls, Returns tt).
Proof.
  intros Hhd. destruct dls as [|[|d0 ds] rest]; [reflexivity|contradiction Hhd; reflexivity|].
  cbn [group_dupl_loop app map first_item]. loop_turn. rewrite group_dupl_loop_from.
  unfold group_dupl_report, group_first_key. cbn [first_record fst snd accumulate flat_map app].
  rewrite (accumulate_shift (d0 :: ds) rest), flat_map_map.
  do 3 f_equal. apply flat_map_ext. intros acc.
  rewrite <- map_app. reflexivity.
Qed.

(** The same loop over the lists of duplicate parameters, when the
    buffer is not sorted. *)
Lemma param_dupl_loop_from (args : Args) (dls : list (list Param.t))
      (r0 : row5) (buf : list row5) :
  String.eqb (sortby args) "group" = false ->
  param_dupl_loop args dls (r0 :: buf) =
  (flat_map (fun acc =>
      [Print Yellow (dupl_banner args (item0_5 r0));
       PrintTable (map tuple_of5 ((r0 :: buf) ++ map (param_dupl_row args) acc)%list)
                  (param_dupl_headers args)])
     (accumulate [] dls),
   Returns tt).
Proof.
  intros Hsort. revert buf. induction dls as [|d rest IH]; intros buf; [reflexivity|].
  cbn [param_dupl_loop app first_item]. rewrite Hsort. loop_turn. rewrite IH.
  cbn [fst snd accumulate flat_map app].
  rewrite (accumulate_shift d rest), flat_map_map.
  do 3 f_equal.
  apply flat_map_ext. intros acc.
  rewrite map_app, app_assoc. reflexivity.
Qed.

Lemma param_dupl_loop_start (args : Args) (dls : list (list Param.t)) :
  String.eqb (sortby args) "group" = false ->
  hd_error dls <> Some [] ->
  param_dupl_loop args dls [] =
  (param_dupl_report args (param_first_key args dls) dls, Returns tt).
Proof.
  intros Hsort Hhd.
  destruct dls as [|[|d0 ds] rest]; [reflexivity|contradiction Hhd; reflexivity|].
  cbn [param_dupl_loop app map first_item]. rewrite Hsort. loop_turn.
  rewrite param_dupl_loop_from by exact Hsort.
  unfold param_dupl_report, param_first_key. cbn [first_record fst snd accumulate flat_map app].
  rewrite (accumulate_shift (d0 :: ds) rest), flat_map_map.
  do 3 f_equal. apply flat_map_ext. intros acc.
  rewrite <- map_app. reflexivity.
Qed.

(** With [--sortby group] the buffer is sorted at every turn: each table
    holds the rows met so far in ascending order of [str(group)], and
    each banner shows the first cell of the buffer as the turn before
    left it. *)
Lemma param_dupl_loop_sorted (args : Args) (dls : list (list Param.t)) :
  String.eqb (sortby args) "group" = true ->
  forall (r0 : row5) (buf : list row5),
  exists tables,
    param_dupl_loop args dls (r0 :: buf)
    = (chained_dupl_report args (item0_5 r0) tables, Returns tt)
    /\ Forall2 (fun t acc => Permutation ((r0 :: buf) ++ map (param_dupl_row args) acc)%list t)
               tables (accumulate [] dls)
    /\ Forall by_group_text tables.
Proof.
  intros Hsort. induction dls as [|d rest IH]; intros r0 buf.
  - exists []. repeat split; constructor.
  - cbn [param_dupl_loop app first_item]. rewrite Hsort. fold group_sort_key.
    destruct (sorted_by_group_text (r0 :: (buf ++ map (param_dupl_row args) d)%list))
      as [s [Hs [Hperm Hasc]]].
    rewrite Hs. loop_turn.
    destruct s as [|r1 buf1]; [apply Permutation_sym, Permutation_nil in Hperm; discriminate|].
    destruct (IH r1 buf1) as [tables [Hloop [Hall Hsorted]]].
    exists ((r1 :: buf1) :: tables). rewrite Hloop. cbn [fst snd].
    split; [reflexivity|]. split.
    + cbn [accumulate app]. constructor; [exact Hperm|].
      rewrite accumulate_shift. apply Forall2_map_right.
      refine (Forall2_impl _ _ Hall). intros t acc Ht.
      rewrite <- Ht, map_app, app_assoc.
      exact (Permutation_app_tail _ Hperm).
    + constructor; assumption.
Qed.

Lemma param_dupl_loop_start_sorted (args : Args) (dls : list (list Param.t)) :
  String.eqb (sortby args) "group" = true ->
  hd_error dls <> Some [] ->
  exists tables,
    param_dupl_loop args dls []
    = (chained_dupl_report args (param_first_key args dls) tables, Returns tt)
    /\ Forall2 (fun t acc => Permutation (map (param_dupl_row args) acc) t)
               tables (accumulate [] dls)
    /\ Forall by_group_text tables.
Proof.
  intros Hsort Hhd.
  destruct dls as [|[|d0 ds] rest]; [|contradiction Hhd; reflexivity|].
  { exists []. repeat split; constructor. }
  cbn [param_dupl_loop app map first_item]. rewrite Hsort. fold group_sort_key.
  destruct (sorted_by_group_text (param_dupl_row args d0 :: map (param_dupl_row args) ds))
    as [s [Hs [Hperm Hasc]]].
  rewrite Hs. loop_turn.
  destruct s as [|r1 buf1]; [apply Permutation_sym, Permutation_nil in Hperm; discriminate|].
  destruct (param_dupl_loop_sorted args rest Hsort r1 buf1)
    as [tables [Hloop [Hall Hsorted]]].
  exists ((r1 :: buf1) :: tables). rewrite Hloop. cbn [fst snd].
  split; [reflexivity|]. split.
  - cbn [accumulate app]. constructor; [exact Hperm|].
    rewrite accumulate_shift. apply Forall2_map_right.
    refine (Forall2_impl _ _ Hall). intros t acc Ht.
    rewrite <- Ht, map_app. exact (Permutation_app_tail _ Hperm).
  - constructor; assumption.
Qed.

(** C10, as amended.  The row buffer [dupldata] is created once and
    never cleared.  For group duplicates, and for parameter duplicates
    unless [--sortby group] is given, the table printed for the [k]-th
    list of duplicates holds the rows of the lists 1 to [k], in order,
    and every banner shows the first key.  With [--sortby group] the
    buffer is sorted by [str(group)] at every turn and stays sorted: the
    [k]-th table holds the rows of the lists 1 to [k] in ascending order
    of [str(group)], the first banner shows the first key and each later
    banner shows the first cell of the table printed before it. *)
Theorem dupl_tables_accumulate (rsparam : Library) (args : Args) (src_file : value)
        (spentries : Entries (list Group.t) (list Param.t)) :
  find_duplicates rsparam src_file (byname args) = Returns spentries ->
  hd_error (groups spentries) <> Some [] ->
  hd_error (params spentries) <> Some [] ->
  find_group_dupls rsparam args src_file =
    ((if quiet args then []
      else [Print Yellow (nl ++ "duplicate groups by " ++ duplparam args ++ ":")])
     ++ group_dupl_report args (group_first_key args (groups spentries)) (groups spentries),
     Returns tt)%list
  /\ (sortby args <> "group" ->
      find_param_dupls rsparam args src_file =
        ((if quiet args then []
          else [Print Yellow (nl ++ "duplicate params by " ++ duplparam args ++ ":")])
         ++ param_dupl_report args (param_first_key args (params spentries)) (params spentries),
         Returns tt)%list)
  /\ (sortby args = "group" ->
      exists tables,
        find_param_dupls rsparam args src_file =
          ((if quiet args then []
            else [Print Yellow (nl ++ "duplicate params by " ++ duplparam args ++ ":")])
           ++ chained_dupl_report args (param_first_key args (params spentries)) tables,
           Returns tt)%list
        /\ Forall2 (fun t acc => Permutation (map (param_dupl_row args) acc) t)
                   tables (accumulate [] (params spentries))
        /\ Forall by_group_text tables)
  /\ (forall k, (k < List.length (params spentries))%nat ->
        nth k (accumulate [] (params spentries)) []
        = List.concat (firstn (S k) (params spentries)))
  /\ (forall k, (k < List.length (groups spentries))%nat ->
        nth k (accumulate [] (groups spentries)) []
        = List.concat (firstn (S k) (groups spentries))).
Proof.
  intros Hlib Hg Hp. split; [|split; [|split; [|split]]].
  - unfold find_group_dupls. rewrite Hlib. unfold lift. rewrite seq_pure.
    rewrite report_eq, group_dupl_loop_start by exact Hg.
    unfold seq. cbn [fst snd]. reflexivity.
  - intros Hsort. apply String.eqb_neq in Hsort.
    unfold find_param_dupls. rewrite Hlib. unfold lift. rewrite seq_pure.
    rewrite report_eq, param_dupl_loop_start by assumption.
    unfold seq. cbn [fst snd]. reflexivity.
  - intros Hsort. apply String.eqb_eq in Hsort.
    destruct (param_dupl_loop_start_sorted args (params spentries) Hsort Hp)
      as [tables [Hloop [Hall Hsorted]]].
    exists tables. unfold find_param_dupls. rewrite Hlib. unfold lift. rewrite seq_pure.
    rewrite report_eq, Hloop. unfold seq. cbn [fst snd].
    split; [reflexivity|]. split; assumption.
  - intros k Hk. apply accumulate_nth, Hk.
  - intros k Hk. apply accumulate_nth, Hk.
Qed.

Lemma dupl_tables_accumulate_witness :
  find_group_dupls sample_library dupl_args (VStr "dupl.txt") =
    ([Print Yellow (nl ++ "duplicate groups by guid:");
      Print Yellow (nl ++ "duplicates by guid: 3");
      PrintTable [[VInt 3; VStr "Walls"; VInt 4]; [VInt 3; VStr "Roofs"; VInt 5];
                  [VInt 3; VStr "Floors"; VInt 6]]
                 ["Guid"; "Name"; "Line #"]],
     Returns tt).
Proof.
  refine (proj1 (dupl_tables_accumulate sample_library dupl_args (VStr "dupl.txt")
                   (mkEntries
                      (map snd (groups (Rsparam.find_duplicates duplicated_file false)))
                      (map snd (params (Rsparam.find_duplicates duplicated_file false))))
                   eq_refl _ _));
    vm_compute; discriminate.
Defined.

(** The claim of C10 fails: with [--sortby group] the third banner shows
    the second key. *)
Lemma third_banner_shows_second_key :
  ~ banners_show_first_key dupl_by_group_args
      (map snd (params (Rsparam.find_duplicates duplicated_file false)))
      (fst (find_param_dupls sample_library dupl_by_group_args (VStr "dupl.txt"))).
Proof.
  unfold banners_show_first_key. vm_compute. intros H.
  inversion H as [|? ? _ H1]; subst. inversion H1 as [|? ? _ H2]; subst.
  inversion H2 as [|? ? H3 _]; subst. discriminate H3.
Qed.

(** ** Keys *)

Lemma key_eqb_eq (a b : key) : key_eqb a b = true <-> a = b.
Proof.
  destruct a, b; simpl; split; intros H; try discriminate.
  - apply Z.eqb_eq in H. congruence.
  - injection H as ->. apply Z.eqb_refl.
  - apply String.eqb_eq in H. congruence.
  - injection H as ->. apply String.eqb_refl.
Qed.

(** ** find_duplicates *)

Section DuplicatesFacts.
Context {A : Type}.
Variable key_of : A -> key.

Lemma key_eqb_refl (k : key) : key_eqb k k = true.
Proof. apply key_eqb_eq. reflexivity. Qed.

Lemma key_eqb_sym (a b : key) : key_eqb a b = key_eqb b a.
Proof.
  destruct (key_eqb a b) eqn:E.
  - apply key_eqb_eq in E. subst. symmetry. apply key_eqb_refl.
  - destruct (key_eqb b a) eqn:E'; [|reflexivity].
    apply key_eqb_eq in E'. subst. rewrite key_eqb_refl in E. discriminate.
Qed.

Lemma lookup_dict_append (k k' : key) (x : A) (d : list (key * list A)) :
  lookup k' (dict_append k x d) =
  if key_eqb k' k
  then Some (match lookup k d with Some xs => xs ++ [x] | None => [x] end)%list
  else lookup k' d.
Proof.
  induction d as [|[k0 xs] d IH]; simpl.
  - destruct (key_eqb k' k); reflexivity.
  - destruct (key_eqb k k0) eqn:E; simpl.
    + apply key_eqb_eq in E. subst k0.
      destruct (key_eqb k' k); reflexivity.
    + rewrite IH. destruct (key_eqb k' k0) eqn:E0; [|reflexivity].
      apply key_eqb_eq in E0. subst k0.
      rewrite key_eqb_sym, E. reflexivity.
Qed.

Lemma keys_dict_append (k k' : key) (x : A) (d : list (key * list A)) :
  In k' (map fst (dict_append k x d)) <-> k' = k \/ In k' (map fst d).
Proof.
  induction d as [|[k0 xs] d IH]; simpl.
  - split; intros [H|H]; auto.
  - destruct (key_eqb k k0) eqn:E; simpl.
    + apply key_eqb_eq in E. subst k0. split; intros H; [tauto|].
      destruct H as [H|[H|H]]; auto.
    + rewrite IH. tauto.
Qed.

Lemma NoDup_dict_append (k : key) (x : A) (d : list (key * list A)) :
  NoDup (map fst d) -> NoDup (map fst (dict_append k x d)).
Proof.
  induction d as [|[k0 xs] d IH]; simpl; intros H.
  - constructor; [intros []|constructor].
  - inversion H as [|? ? Hnot Hd]; subst.
    destruct (key_eqb k k0) eqn:E; simpl.
    + constructor; assumption.
    + constructor; [|apply IH, Hd].
      rewrite keys_dict_append. intros [->|Hin]; [|contradiction].
      rewrite key_eqb_refl in E. discriminate.
Qed.

Lemma group_records_snoc (l : list A) (x : A) :
  group_records key_of (l ++ [x]) = dict_append (key_of x) x (group_records key_of l).
Proof. unfold group_records. rewrite fold_left_app. reflexivity. Qed.

Lemma NoDup_group_records (l : list A) : NoDup (map fst (group_records key_of l)).
Proof.
  induction l as [|x l IH] using rev_ind; [constructor|].
  rewrite group_records_snoc. apply NoDup_dict_append, IH.
Qed.

(** What is filed under [k] after [l]: the records of [l] with key [k],
    in the order of [l], if there are any. *)
Lemma lookup_group_records (k : key) (l : list A) :
  lookup k (group_records key_of l) =
  match with_key key_of k l with
  | [] => None
  | ms => Some ms
  end.
Proof.
  induction l as [|x l IH] using rev_ind; [reflexivity|].
  rewrite group_records_snoc, lookup_dict_append.
  unfold with_key in *. rewrite filter_app. cbn [List.filter].
  rewrite (key_eqb_sym k). destruct (key_eqb (key_of x) k) eqn:E.
  - apply key_eqb_eq in E. subst k. rewrite IH.
    destruct (List.filter _ l); reflexivity.
  - rewrite app_nil_r. exact IH.
Qed.

Lemma In_lookup (k : key) (ms : list A) (d : list (key * list A)) :
  NoDup (map fst d) -> (In (k, ms) d <-> lookup k d = Some ms).
Proof.
  induction d as [|[k0 xs] d IH]; simpl; intros H.
  - split; [intros []|discriminate].
  - inversion H as [|? ? Hnot Hd]; subst. destruct (key_eqb k k0) eqn:E.
    + apply key_eqb_eq in E. subst k0. split.
      * intros [Heq|Hin]; [congruence|].
        exfalso. apply Hnot. apply (in_map fst) in Hin. exact Hin.
      * intros Heq. left. congruence.
    + rewrite <- (IH Hd). split; [|auto].
      intros [Heq|Hin]; [|exact Hin].
      injection Heq as -> _. rewrite key_eqb_refl in E. discriminate.
Qed.

Lemma NoDup_keys_filter (p : key * list A -> bool) (d : list (key * list A)) :
  NoDup (map fst d) -> NoDup (map fst (List.filter p d)).
Proof.
  induction d as [|kv d IH]; simpl; intros H; [constructor|].
  inversion H as [|? ? Hnot Hd]; subst. destruct (p kv); simpl; [|auto].
  constructor; [|auto]. intros Hin. apply Hnot.
  apply in_map_iff in Hin. destruct Hin as [kv' [Heq Hin]].
  apply filter_In in Hin. rewrite <- Heq. apply in_map, Hin.
Qed.

Lemma duplicates_iff (l : list A) (k : key) (ms : list A) :
  In (k, ms) (duplicates key_of l) <-> ms = with_key key_of k l /\ (2 <= List.length ms)%nat.
Proof.
  unfold duplicates. rewrite filter_In. cbn [snd].
  rewrite (In_lookup k ms _ (NoDup_group_records l)), lookup_group_records.
  rewrite Nat.leb_le. split.
  - intros [H Hlen]. split; [|exact Hlen].
    destruct (with_key key_of k l); [discriminate|congruence].
  - intros [-> Hlen]. split; [|exact Hlen].
    destruct (with_key key_of k l); [simpl in Hlen; lia|reflexivity].
Qed.

Lemma NoDup_duplicates (l : list A) : NoDup (map fst (duplicates key_of l)).
Proof. apply NoDup_keys_filter, NoDup_group_records. Qed.
End DuplicatesFacts.

(** C5.  [find_duplicates(file, by_name)] files the records under their
    GUID (the id, for a group) when [by_name] is false and under their
    name when it is true; it has one entry per key, keeps the keys that
    two records or more share, and lists under a key all the records of
    the file with that key, in file order.  A file with exactly two
    parameters that share a GUID yields exactly one key, with the two
    records in file order. *)
Theorem find_duplicates_groups_by_key (file : File) (by_name : bool) :
  (* one entry per key *)
  NoDup (map fst (params (Rsparam.find_duplicates file by_name)))
  /\ NoDup (map fst (groups (Rsparam.find_duplicates file by_name)))
  (* the members of a key: all the records with that key, in file order,
     when they are two or more *)
  /\ (forall k ms, In (k, ms) (params (Rsparam.find_duplicates file by_name)) <->
                   ms = List.filter (fun p => key_eqb (param_key by_name p) k) (params file)
                   /\ (2 <= List.length ms)%nat)
  /\ (forall k ms, In (k, ms) (groups (Rsparam.find_duplicates file by_name)) <->
                   ms = List.filter (fun g => key_eqb (group_key by_name g) k) (groups file)
                   /\ (2 <= List.length ms)%nat)
  (* the key is the GUID or the id, or the name *)
  /\ (forall p, param_key by_name p
                = if by_name then KStr (Param.name p) else KStr (Param.guid p))
  /\ (forall g, group_key by_name g
                = if by_name then KStr (Group.name g) else KInt (Group.guid g))
  (* two PARAM lines with one GUID *)
  /\ (forall (gs : list Group.t) (p1 p2 : Param.t),
         Param.guid p1 = Param.guid p2 ->
         params (Rsparam.find_duplicates (mkEntries gs [p1; p2]) false)
         = [(KStr (Param.guid p1), [p1; p2])]).
Proof.
  split; [apply NoDup_duplicates|]. split; [apply NoDup_duplicates|].
  split; [intros; apply duplicates_iff|]. split; [intros; apply duplicates_iff|].
  split; [reflexivity|]. split; [reflexivity|].
  intros gs p1 p2 Hg. unfold Rsparam.find_duplicates, duplicates, group_records.
  cbn [params fold_left dict_append param_key key_eqb].
  rewrite Hg, String.eqb_refl. reflexivity.
Qed.

Lemma find_duplicates_groups_by_key_witness :
  params (Rsparam.find_duplicates
            (mkEntries []
               [sample_param "00000000-0000-0000-0000-00000000000a" "Width" 1 2;
                sample_param "00000000-0000-0000-0000-00000000000a" "Height" 1 3]) false)
  = [(KStr "00000000-0000-0000-0000-00000000000a",
      [sample_param "00000000-0000-0000-0000-00000000000a" "Width" 1 2;
       sample_param "00000000-0000-0000-0000-00000000000a" "Height" 1 3])].
Proof.
  exact (proj2 (proj2 (proj2 (proj2 (proj2 (proj2
          (find_duplicates_groups_by_key two_params_file false))))))
          [] (sample_param "00000000-0000-0000-0000-00000000000a" "Width" 1 2)
          (sample_param "00000000-0000-0000-0000-00000000000a" "Height" 1 3) eq_refl).
Defined.

(** ** compare *)

Lemma has_key_iff {A} (key_of : A -> key) (k : key) (l : list A) :
  has_key key_of k l = true <-> exists r, In r l /\ key_of r = k.
Proof.
  unfold has_key. rewrite existsb_exists. split; intros [r [Hin H]]; exists r; split; auto.
  - apply key_eqb_eq in H. congruence.
  - apply key_eqb_eq. congruence.
Qed.

(** A record is unique to [mine] when it is in [mine] and no record of
    [theirs] has its key. *)
Lemma unique_to_iff {A} (key_of : A -> key) (mine theirs : list A) (r : A) :
  In r (unique_to key_of mine theirs) <->
  In r mine /\ forall r', In r' theirs -> key_of r' <> key_of r.
Proof.
  unfold unique_to. rewrite filter_In, negb_true_iff. split; intros [Hin H]; split; auto.
  - intros r' Hin' Heq.
    assert (Hk : has_key key_of (key_of r) theirs = true) by (apply has_key_iff; eauto).
    congruence.
  - destruct (has_key key_of (key_of r) theirs) eqn:E; [|reflexivity].
    apply has_key_iff in E. destruct E as [r' [Hin' Heq]]. exfalso. exact (H r' Hin' Heq).
Qed.

(** C6.  [compare(file_a, file_b, by_name)] returns, for each file, the
    records whose comparison key no record of the other file has: the
    GUID of a parameter and the id of a group, or the name when
    [by_name] is chosen.  A record whose key is in both files is in
    neither result.  The parameters returned do not depend on the groups
    of the files, nor the groups on the parameters.  With group 1 in
    both files and one parameter each, of different GUIDs, each result
    holds the parameter of its file and no group. *)
Theorem compare_unique_records (file_a file_b : File) (by_name : bool) :
  (* the parameters and the groups only one file has *)
  (forall p, In p (params (fst (Rsparam.compare file_a file_b by_name))) <->
             In p (params file_a)
             /\ forall q, In q (params file_b) -> param_key by_name q <> param_key by_name p)
  /\ (forall p, In p (params (snd (Rsparam.compare file_a file_b by_name))) <->
                In p (params file_b)
                /\ forall q, In q (params file_a) -> param_key by_name q <> param_key by_name p)
  /\ (forall g, In g (groups (fst (Rsparam.compare file_a file_b by_name))) <->
                In g (groups file_a)
                /\ forall h, In h (groups file_b) -> group_key by_name h <> group_key by_name g)
  /\ (forall g, In g (groups (snd (Rsparam.compare file_a file_b by_name))) <->
                In g (groups file_b)
                /\ forall h, In h (groups file_a) -> group_key by_name h <> group_key by_name g)
  (* a key that is in both files is in neither result *)
  /\ (forall p q, In p (params file_a) -> In q (params file_b) ->
                  param_key by_name p = param_key by_name q ->
                  ~ In p (params (fst (Rsparam.compare file_a file_b by_name)))
                  /\ ~ In q (params (snd (Rsparam.compare file_a file_b by_name))))
  /\ (forall g h, In g (groups file_a) -> In h (groups file_b) ->
                  group_key by_name g = group_key by_name h ->
                  ~ In g (groups (fst (Rsparam.compare file_a file_b by_name)))
                  /\ ~ In h (groups (snd (Rsparam.compare file_a file_b by_name))))
  (* the key is the GUID or the id, or the name *)
  /\ (forall p, param_key by_name p
                = if by_name then KStr (Param.name p) else KStr (Param.guid p))
  /\ (forall g, group_key by_name g
                = if by_name then KStr (Group.name g) else KInt (Group.guid g))
  (* the two comparisons are independent *)
  /\ (forall groups_a groups_b,
         let other := Rsparam.compare (mkEntries groups_a (params file_a))
                                      (mkEntries groups_b (params file_b)) by_name in
         params (fst other) = params (fst (Rsparam.compare file_a file_b by_name))
         /\ params (snd other) = params (snd (Rsparam.compare file_a file_b by_name)))
  /\ (forall params_a params_b,
         let other := Rsparam.compare (mkEntries (groups file_a) params_a)
                                      (mkEntries (groups file_b) params_b) by_name in
         groups (fst other) = groups (fst (Rsparam.compare file_a file_b by_name))
         /\ groups (snd other) = groups (snd (Rsparam.compare file_a file_b by_name)))
  (* group 1 in both files, one parameter each, with different GUIDs *)
  /\ (forall (x y : Param.t) (line_a line_b : Z),
         Param.guid x <> Param.guid y ->
         Rsparam.compare (mkEntries [Group.mk 1 "Doors" line_a] [x])
                         (mkEntries [Group.mk 1 "Doors" line_b] [y]) false
         = (mkEntries [] [x], mkEntries [] [y])).
Proof.
  repeat match goal with |- _ /\ _ => split end;
    try (intros; apply unique_to_iff); try (intros; split; reflexivity);
    try (intros; reflexivity);
    try (intros r r' Hr Hr' Hk; cbn [Rsparam.compare fst snd groups params];
         rewrite !unique_to_iff; split; intros [_ H];
         [exact (H r' Hr' (eq_sym Hk))|exact (H r Hr Hk)]).
  intros x y line_a line_b Hxy. unfold Rsparam.compare, unique_to, has_key.
  cbn [groups params List.filter existsb group_key param_key key_eqb Group.guid].
  rewrite (String.eqb_sym (Param.guid y)).
  apply String.eqb_neq in Hxy. rewrite Hxy. reflexivity.
Qed.

Lemma compare_unique_records_witness :
  Rsparam.compare
    (mkEntries [Group.mk 1 "Doors" 2]
               [sample_param "00000000-0000-0000-0000-00000000000a" "Width" 1 3])
    (mkEntries [Group.mk 1 "Doors" 4]
               [sample_param "00000000-0000-0000-0000-00000000000b" "Height" 1 5]) false
  = (mkEntries [] [sample_param "00000000-0000-0000-0000-00000000000a" "Width" 1 3],
     mkEntries [] [sample_param "00000000-0000-0000-0000-00000000000b" "Height" 1 5]).
Proof.
  refine (proj2 (proj2 (proj2 (proj2 (proj2 (proj2 (proj2 (proj2 (proj2 (proj2
            (compare_unique_records two_params_file two_params_file false))))))))))
            _ _ 2%Z 4%Z _).
  vm_compute. discriminate.
Defined.

(** ** Regular expressions *)

Module ReFacts.
Import Re.
Local Open Scope list_scope.

Lemma last_of_app (prev : option char) (w1 w2 : text) :
  last_of prev (w1 ++ w2) = last_of (last_of prev w1) w2.
Proof. apply fold_left_app. Qed.











(** *** Literal patterns *)




(** *** Reading a pattern without special characters *)





End ReFacts.

(** Patterns and names, with what [re.search], [re.match] and
    [re.fullmatch] answer. *)
Example patterns_applied :
  forallb agrees
    [("[Dd]oor", "Doors", (true, true, false));
     ("[Dd]oor", "doorway", (true, true, false));
     ("[Dd]oor", "Floor", (false, false, false));
     ("oor", "Doors", (true, false, false));
     ("r.*W", "Door Width", (true, false, false));
     ("(Win|Do+)rs$", "Doors", (true, true, true));
     ("(Win|Do+)rs$", "Windows", (false, false, false));
     ("\s\w{5}$", "Door Width", (true, false, false));
     ("^\w+$", "Door Width", (false, false, false));
     ("^\w+$", "Doors", (true, true, true)); ("o{2}r?s", "Doors", (true, false, false));
     ("r\b", "Door Width", (true, false, false));
     ("r\b", "Doors", (false, false, false));
     ("Door(s| W)", "Door Width", (true, true, false));
     ("[^a-z ]", "width", (false, false, false));
     ("[^a-z ]", "Width", (true, true, false));
     ("D.*h", "Door Width", (true, true, true));
     ("D.*?h", "Door Width", (true, true, true));
     ("o+?r", "Doors", (true, false, false));
     ("^\d{2,3}[.]\d$", "12.5", (true, true, true));
     ("^\d{2,3}[.]\d$", "1234.5", (false, false, false));
     ("\d{2,}", "a1b22", (true, false, false)); ("\d{,1}x", "x", (true, true, true));
     ("^\D+$", "a1", (false, false, false)); ("a|b*", "ccc", (true, true, false));
     ("(?:ab)+c", "xababc", (true, false, false));
     ("(?P<n>x)y?", "zxy", (true, false, false)); ("(a|)b", "b", (true, true, true));
     ("\.", "a.b", (true, false, false)); ("\.", "ab", (false, false, false));
     ("a.b", bytes [97; 10; 98], (false, false, false));
     ("a.b", "a-b", (true, true, true)); ("x$", bytes [120; 10], (true, true, false));
     ("x\Z", bytes [120; 10], (false, false, false)); ("x\Z", "x", (true, true, true));
     ("\Ax", "ax", (false, false, false)); ("a^b", "a^b", (false, false, false));
     ("a$b", "a$b", (false, false, false)); ("a\$b", "a$b", (true, true, true));
     ("D(?:oo)*r", "Dr", (true, true, true)); ("[]]", "a]", (true, false, false));
     ("[a-]", "-", (true, true, true)); ("[\d_]+$", "id_42", (true, false, false));
     ("\W", "a_b", (false, false, false)); ("\W", "a b", (true, false, false));
     ("\S\s\S", bytes [97; 9; 98], (true, true, true));
     ("\x41\t", bytes [65; 9], (true, true, true));
     ("\n", bytes [97; 10; 98], (true, false, false)); ("a{", "a{", (true, true, true));
     ("a{x}", "a{x}", (true, true, true)); ("a{1,2", "aa", (false, false, false));
     ("\w", bytes [195; 169], (true, true, true));
     ("[^\W\d]", bytes [194; 178], (true, true, true));
     ("\s", bytes [194; 160], (true, true, true));
     ("\d", bytes [194; 178], (false, false, false));
     ("^.$", bytes [195; 169], (true, true, true));
     ("^.$", bytes [226; 130; 172], (true, true, true));
     ("^\w+$", bytes [208; 168; 208; 184; 209; 128], (true, true, true));
     ("\d", bytes [217; 163], (true, true, true));
     ("[^\W\d_]+$", bytes [72; 195; 182; 104; 101], (true, true, true));
     ("\u00e9", bytes [99; 97; 102; 195; 169], (true, false, false));
     ("\101\0", bytes [65; 0], (true, true, true));
     ("o\B", "Door", (true, false, false)); ("r\B", "Door", (false, false, false));
     ("a(?#b)c", "ac", (true, true, true));
     (bytes [91; 206; 177; 45; 207; 137; 93], bytes [206; 187], (true, true, true));
     ("\B", "", (false, false, false)); ("\b", "", (false, false, false));
     ("a(?#\))b", "ab", (true, true, true));
     ("^\s*$", bytes [32; 9; 227; 128; 128], (true, true, true));
     ("a\012b", bytes [97; 10; 98], (true, true, true));
     ("[\101-\103]+$", "ABC", (true, true, true));
     ("\U0001F600", bytes [240; 159; 152; 128], (true, true, true))] = true.
Proof. vm_compute. reflexivity. Qed.

(** Patterns [re.compile] refuses, and patterns it accepts. *)
Example patterns_refused :
  forallb refused
    ["("; ")"; "(a"; "a)"; "a**"; "*a"; "a|*b"; "^*"; "$+"; "\b?"; "[a"; "[]"; "[^]";
     "[b-a]"; "[\d-a]"; "a{2,1}"; "{1}"; "\q"; "[\A]"; "\x4"; "a+??"; "\";
     "(?P<n>a)(?P<n>b)"] = true
  /\ forallb accepted
       [""; "|"; "()"; "(|)"; "a|"; "]"; "}"; "{"; "a{,}"; "a*?"; "a{2}?"; "\_"; "[[]";
        "[a\]]"; "(?:^)*"; "(a*)*"] = true.
Proof. vm_compute. split; reflexivity. Qed.


(** ** find *)




(* ===================================================================== *)
(** * More about the front end *)
(* ===================================================================== *)

(** ** Listings *)

(** The rows of a listing never fail to sort: their key is the same for
    all. *)
Lemma rows_sort_in_place (rows : list tuple) :
  sorted value_lt (fun x => tuple_getattr x "name" (VInt 0)) rows = Returns rows.
Proof.
  apply (sorted_constant_key value_lt _ (VInt 0)); [reflexivity|].
  intros; reflexivity.
Qed.

Lemma list_params_of (rsparam : Library) (args : Args) (src_file : value)
      (sparams : option (list Param.t)) (ps : list Param.t) :
  listed_params rsparam args src_file sparams = Returns ps ->
  list_params rsparam args src_file sparams = (params_listing args ps, Returns tt).
Proof.
  intros Hps. unfold list_params.
  assert (E : (match sparams with
               | Some (sp :: l) => ret (sp :: l)
               | _ => lift (get_params rsparam src_file (filter args))
               end) = ([], Returns ps)).
  { unfold listed_params in Hps. destruct sparams as [[|sp l]|]; unfold ret, lift; congruence. }
  rewrite E, seq_pure. clear E.
  assert (S : (if String.eqb (sortby args) "group"
               then lift (sorted value_lt (fun x => tuple_getattr x "name" (VInt 0))
                                 (map (param_row (param_columns args)) ps))
               else ret (map (param_row (param_columns args)) ps))
              = ([], Returns (map (param_row (param_columns args)) ps))).
  { destruct (String.eqb (sortby args) "group"); [|reflexivity].
    rewrite rows_sort_in_place. reflexivity. }
  rewrite S, seq_pure, seq_emit, report_eq. cbn [fst snd].
  unfold params_listing, total_line. rewrite length_map. reflexivity.
Qed.

Lemma list_params_fails (rsparam : Library) (args : Args) (src_file : value)
      (sparams : option (list Param.t)) (e : exn) :
  listed_params rsparam args src_file sparams = Raises e ->
  list_params rsparam args src_file sparams = ([], Raises e).
Proof.
  intros He. unfold list_params, listed_params in *.
  destruct sparams as [[|sp l]|]; try discriminate; unfold lift; rewrite He; reflexivity.
Qed.

(** The groups [list_groups] shows. *)
Lemma list_groups_of (rsparam : Library) (args : Args) (src_file : value)
      (spgroups : option (list Group.t)) (gs : list Group.t) :
  match spgroups with
  | Some (g :: l) => Returns (g :: l)
  | _ => get_paramgroups rsparam src_file (encode args)
  end = Returns gs ->
  list_groups rsparam args src_file spgroups = (groups_listing args gs, Returns tt).
Proof.
  intros Hgs. unfold list_groups.
  assert (E : (match spgroups with
               | Some (g :: l) => ret (g :: l)
               | _ => lift (get_paramgroups rsparam src_file (encode args))
               end) = ([], Returns gs)).
  { destruct spgroups as [[|g l]|]; unfold ret, lift; congruence. }
  rewrite E, seq_pure, seq_emit, report_eq. cbn [fst snd].
  unfold groups_listing, total_line. rewrite length_map. reflexivity.
Qed.

Lemma list_groups_fails (rsparam : Library) (args : Args) (src_file : value)
      (spgroups : option (list Group.t)) (e : exn) :
  match spgroups with
  | Some (g :: l) => Returns (g :: l)
  | _ => get_paramgroups rsparam src_file (encode args)
  end = Raises e ->
  list_groups rsparam args src_file spgroups = ([], Raises e).
Proof.
  intros He. unfold list_groups.
  destruct spgroups as [[|g l]|]; try discriminate; unfold lift; rewrite He; reflexivity.
Qed.

(** X1.  Handed a list of parameters that is not empty, [list_params]
    never raises and never calls the library: it prints one table, with
    one row per parameter in the order given, whatever [--sortby], and
    the total.  Handed none, it shows the parameters the library returns
    for the file under [--filter], even when there are none; and when
    the library raises, it prints nothing. *)
Theorem list_params_shows_its_parameters (rsparam : Library) (args : Args)
        (src_file : value) :
  (forall sp l,
      list_params rsparam args src_file (Some (sp :: l))
      = (params_listing args (sp :: l), Returns tt))
  /\ (forall sparams ps,
         sparams = None \/ sparams = Some [] ->
         get_params rsparam src_file (filter args) = Returns ps ->
         list_params rsparam args src_file sparams = (params_listing args ps, Returns tt))
  /\ (forall sparams e,
         sparams = None \/ sparams = Some [] ->
         get_params rsparam src_file (filter args) = Raises e ->
         list_params rsparam args src_file sparams = ([], Raises e)).
Proof.
  split; [|split].
  - intros sp l. apply list_params_of. reflexivity.
  - intros sparams ps [->| ->] H; apply list_params_of; exact H.
  - intros sparams e [->| ->] H; apply list_params_fails; exact H.
Qed.

Lemma list_params_shows_its_parameters_witness :
  list_params sample_library list_by_group_args (VStr "two.txt") (Some [])
  = (params_listing list_by_group_args (params two_params_file), Returns tt).
Proof.
  exact (proj1 (proj2 (list_params_shows_its_parameters sample_library
                         list_by_group_args (VStr "two.txt")))
               (Some []) (params two_params_file) (or_intror eq_refl) eq_refl).
Defined.

(** ** The width of the rows *)

Lemma split_length (sep : ascii) (s : string) :
  List.length (split sep s) = S (count_char sep s).
Proof.
  induction s as [|c rest IH]; [reflexivity|]. simpl.
  destruct (Ascii.eqb c sep); simpl.
  - rewrite IH. reflexivity.
  - destruct (split sep rest) as [|w ws]; simpl in *; [discriminate|exact IH].
Qed.

Lemma param_columns_length (args : Args) :
  List.length (param_columns args) = row_width args 5.
Proof.
  unfold param_columns, row_width, truthy.
  destruct (columns args) as [c|]; [|reflexivity].
  destruct (String.eqb c ""); simpl; [reflexivity|apply split_length].
Qed.

Lemma group_columns_length (args : Args) :
  List.length (group_columns args) = row_width args 3.
Proof.
  unfold group_columns, row_width, truthy.
  destruct (columns args) as [c|]; [|reflexivity].
  destruct (String.eqb c ""); simpl; [reflexivity|apply split_length].
Qed.

(** X2.  Every row of a listing has one cell per name of [--columns]:
    one more than the option has colons, and 5 for parameters or 3 for
    groups when the option is absent or empty.  The headers do not
    follow the option: they are always the 5 titles of a parameter and
    the 3 titles of a group. *)
Theorem listing_rows_follow_columns (rsparam : Library) (args : Args) (src_file : value)
        (sparams : option (list Param.t)) (spgroups : option (list Group.t)) :
  (forall rows headers,
      In (PrintTable rows headers) (fst (list_params rsparam args src_file sparams)) ->
      headers = params_headers
      /\ Forall (fun row => List.length row = row_width args 5) rows)
  /\ (forall rows headers,
         In (PrintTable rows headers) (fst (list_groups rsparam args src_file spgroups)) ->
         headers = groups_headers
         /\ Forall (fun row => List.length row = row_width args 3) rows)
  /\ List.length params_headers = 5%nat /\ List.length groups_headers = 3%nat.
Proof.
  split; [|split; [|split; reflexivity]].
  - intros rows headers Hin.
    destruct (listed_params rsparam args src_file sparams) as [ps|e] eqn:E.
    + rewrite (list_params_of _ _ _ _ _ E) in Hin. cbn [fst] in Hin.
      unfold params_listing, total_line in Hin.
      destruct Hin as [Heq|Hin].
      * injection Heq as <- <-. split; [reflexivity|].
        apply Forall_forall. intros row Hrow. apply in_map_iff in Hrow.
        destruct Hrow as [p [<- _]]. unfold param_row.
        rewrite length_map. apply param_columns_length.
      * destruct (quiet args); [destruct Hin|].
        destruct Hin as [Heq|[]]. discriminate Heq.
    + rewrite (list_params_fails _ _ _ _ _ E) in Hin. destruct Hin.
  - intros rows headers Hin.
    destruct (match spgroups with
              | Some (g :: l) => Returns (g :: l)
              | _ => get_paramgroups rsparam src_file (encode args)
              end) as [gs|e] eqn:E.
    + rewrite (list_groups_of _ _ _ _ _ E) in Hin. cbn [fst] in Hin.
      unfold groups_listing, total_line in Hin.
      destruct Hin as [Heq|Hin].
      * injection Heq as <- <-. split; [reflexivity|].
        apply Forall_forall. intros row Hrow. apply in_map_iff in Hrow.
        destruct Hrow as [g [<- _]]. unfold group_row.
        rewrite length_map. apply group_columns_length.
      * destruct (quiet args); [destruct Hin|].
        destruct Hin as [Heq|[]]. discriminate Heq.
    + rewrite (list_groups_fails _ _ _ _ _ E) in Hin. destruct Hin.
Qed.

Lemma listing_rows_follow_columns_witness :
  params_headers = params_headers
  /\ Forall (fun row => List.length row = row_width list_by_group_args 5)
            (map (param_row (param_columns list_by_group_args)) (params two_params_file)).
Proof.
  refine (proj1 (listing_rows_follow_columns sample_library list_by_group_args
                   (VStr "two.txt") None None) _ params_headers _).
  left. reflexivity.
Defined.

(** ** Searching and comparing *)

Lemma titled_groups (rsparam : Library) (args : Args) (shown : bool) (title : string)
      (gs : list Group.t) :
  when (nonempty gs && shown)
       (report args Yellow title ;; list_groups rsparam args VNone (Some gs))
  = (titled args (nonempty gs && shown) title (groups_listing args gs), Returns tt).
Proof.
  unfold when, titled. destruct gs as [|g l]; [reflexivity|]. cbn [nonempty andb].
  destruct shown; [|reflexivity].
  rewrite report_eq, (list_groups_of _ _ _ _ (g :: l)) by reflexivity.
  unfold seq. cbn [fst snd]. reflexivity.
Qed.

Lemma titled_params (rsparam : Library) (args : Args) (shown : bool) (title : string)
      (ps : list Param.t) :
  when (nonempty ps && shown)
       (report args Yellow title ;; list_params rsparam args VNone (Some ps))
  = (titled args (nonempty ps && shown) title (params_listing args ps), Returns tt).
Proof.
  unfold when, titled. destruct ps as [|p l]; [reflexivity|]. cbn [nonempty andb].
  destruct shown; [|reflexivity].
  rewrite report_eq, (list_params_of _ _ _ _ (p :: l)) by reflexivity.
  unfold seq. cbn [fst snd]. reflexivity.
Qed.

Lemma seq_returned {A B} (out : list event) (a : A) (k : A -> cli B) :
  seq (out, Returns a) k = ((out ++ fst (k a))%list, snd (k a)).
Proof. reflexivity. Qed.

(** X3.  [find_matching] shows what [rsparam.find] returned and reads
    nothing else: under a title the matching groups, unless there are
    none or [--params] is set, then under a title the matching
    parameters, unless there are none or [--groups] is set.  With both
    flags it prints nothing, and with no match either; it raises only
    when [rsparam.find] does, and then prints nothing. *)
Theorem find_matching_shows_the_matches (rsparam : Library) (args : Args) (src_file : value) :
  (forall spentries,
      find rsparam src_file (of_opt (regex_pattern args)) (encode args) = Returns spentries ->
      find_matching rsparam args src_file =
        ((titled args (nonempty (groups spentries) && negb (params_only args))
                 (nl ++ "groups matching: " ++ str (of_opt (regex_pattern args)))
                 (groups_listing args (groups spentries))
          ++ titled args (nonempty (params spentries) && negb (groups_only args))
                 (nl ++ "params matching: " ++ str (of_opt (regex_pattern args)))
                 (params_listing args (params spentries)))%list,
         Returns tt)
      /\ (params_only args = true -> groups_only args = true ->
          find_matching rsparam args src_file = ([], Returns tt))
      /\ (groups spentries = [] -> params spentries = [] ->
          find_matching rsparam args src_file = ([], Returns tt)))
  /\ (forall e,
         find rsparam src_file (of_opt (regex_pattern args)) (encode args) = Raises e ->
         find_matching rsparam args src_file = ([], Raises e)).
Proof.
  split.
  - intros spentries Hfind.
    assert (H : find_matching rsparam args src_file =
        ((titled args (nonempty (groups spentries) && negb (params_only args))
                 (nl ++ "groups matching: " ++ str (of_opt (regex_pattern args)))
                 (groups_listing args (groups spentries))
          ++ titled args (nonempty (params spentries) && negb (groups_only args))
                 (nl ++ "params matching: " ++ str (of_opt (regex_pattern args)))
                 (params_listing args (params spentries)))%list,
         Returns tt)).
    { unfold find_matching. rewrite Hfind. unfold lift. rewrite seq_pure.
      rewrite titled_groups, titled_params, seq_returned. reflexivity. }
    split; [exact H|]. split.
    + intros Hp Hg. rewrite H, Hp, Hg, !andb_false_r. reflexivity.
    + intros Hg Hp. rewrite H, Hg, Hp. reflexivity.
  - intros e Hfind. unfold find_matching. rewrite Hfind. reflexivity.
Qed.

Lemma find_matching_shows_the_matches_witness :
  find_matching sample_library
    (mkArgs true "utf-8" false false false "name" None None false false false
            false true false false false false (Some "two.txt") (Some "^W") None None None [])
    (VStr "two.txt")
  = ([PrintTable [[VInt 2; VStr "Windows"; VInt 3]] groups_headers;
      PrintTable [[VStr "00000000-0000-0000-0000-00000000000a"; VStr "Width";
                   VStr "LENGTH"; VInt 1; VInt 5]] params_headers],
     Returns tt).
Proof.
  exact (proj1 (proj1 (find_matching_shows_the_matches sample_library
           (mkArgs true "utf-8" false false false "name" None None false false false
                   false true false false false false (Some "two.txt") (Some "^W")
                   None None None [])
           (VStr "two.txt"))
         (mkEntries [Group.mk 2 "Windows" 3]
                    [sample_param "00000000-0000-0000-0000-00000000000a" "Width" 1 5])
         eq_refl)).
Defined.

(** X4.  [comp] shows what [rsparam.compare] returned, in this order:
    the groups only the first file has, the groups only the second has,
    the parameters only the first has, the parameters only the second
    has; a part is left out when it is empty, when its kind is excluded
    by [--params] or [--groups], or when its file is excluded by
    [--second] or [--first].  With both [--first] and [--second], or
    both [--params] and [--groups], or two files without differences,
    it prints nothing at all. *)
Theorem comp_shows_the_differences (rsparam : Library) (args : Args)
        (first_file second_file : value) :
  (forall uniq1 uniq2,
      compare rsparam first_file second_file (encode args) = Returns (uniq1, uniq2) ->
      comp rsparam args first_file second_file =
        ((titled args (nonempty (groups uniq1) && negb (params_only args) && negb (second args))
                 (nl ++ "unique groups in first") (groups_listing args (groups uniq1))
          ++ titled args (nonempty (groups uniq2) && negb (params_only args) && negb (first args))
                 (nl ++ "unique groups in second") (groups_listing args (groups uniq2))
          ++ titled args (nonempty (params uniq1) && negb (groups_only args) && negb (second args))
                 (nl ++ "unique parameters in first") (params_listing args (params uniq1))
          ++ titled args (nonempty (params uniq2) && negb (groups_only args) && negb (first args))
                 (nl ++ "unique parameters in second") (params_listing args (params uniq2)))%list,
         Returns tt)
      /\ (first args = true -> second args = true ->
          comp rsparam args first_file second_file = ([], Returns tt))
      /\ (params_only args = true -> groups_only args = true ->
          comp rsparam args first_file second_file = ([], Returns tt))
      /\ (groups uniq1 = [] -> groups uniq2 = [] -> params uniq1 = [] -> params uniq2 = [] ->
          comp rsparam args first_file second_file = ([], Returns tt)))
  /\ (forall e,
         compare rsparam first_file second_file (encode args) = Raises e ->
         comp rsparam args first_file second_file = ([], Raises e)).
Proof.
  split.
  - intros uniq1 uniq2 Hcmp.
    assert (H : comp rsparam args first_file second_file =
        ((titled args (nonempty (groups uniq1) && negb (params_only args) && negb (second args))
                 (nl ++ "unique groups in first") (groups_listing args (groups uniq1))
          ++ titled args (nonempty (groups uniq2) && negb (params_only args) && negb (first args))
                 (nl ++ "unique groups in second") (groups_listing args (groups uniq2))
          ++ titled args (nonempty (params uniq1) && negb (groups_only args) && negb (second args))
                 (nl ++ "unique parameters in first") (params_listing args (params uniq1))
          ++ titled args (nonempty (params uniq2) && negb (groups_only args) && negb (first args))
                 (nl ++ "unique parameters in second") (params_listing args (params uniq2)))%list,
         Returns tt)).
    { unfold comp. rewrite Hcmp. unfold lift. rewrite seq_pure. cbn [fst snd].
      rewrite <- !andb_assoc, !titled_groups, !titled_params, !seq_returned.
      reflexivity. }
    split; [exact H|]. split; [|split].
    + intros H1 H2. rewrite H, H1, H2, !andb_false_r. reflexivity.
    + intros Hp Hg. rewrite H, Hp, Hg. cbn [negb]. rewrite !andb_false_r. reflexivity.
    + intros G1 G2 P1 P2. rewrite H, G1, G2, P1, P2. reflexivity.
  - intros e Hcmp. unfold comp. rewrite Hcmp. reflexivity.
Qed.

Lemma comp_shows_the_differences_witness :
  comp sample_library
    (mkArgs true "utf-8" false false false "name" None None false true true
            false false false true false false None None (Some "two.txt") (Some "dupl.txt")
            None [])
    (VStr "two.txt") (VStr "dupl.txt")
  = ([], Returns tt).
Proof.
  exact (proj1 (proj2 (proj1 (comp_shows_the_differences sample_library
           (mkArgs true "utf-8" false false false "name" None None false true true
                   false false false true false false None None (Some "two.txt")
                   (Some "dupl.txt") None [])
           (VStr "two.txt") (VStr "dupl.txt"))
         (fst (Rsparam.compare two_params_file duplicated_file false))
         (snd (Rsparam.compare two_params_file duplicated_file false))
         eq_refl)) eq_refl eq_refl).
Defined.

(** ** The find dupl command *)

(** X5.  [find dupl] without [--all], [--params] or [--groups] reports
    no duplicate and does not call the library: the run prints the
    encoding and the file name, and returns. *)
Theorem find_dupl_without_kind_reports_nothing (rsparam : Library) (args : Args) :
  cmd_list args = false -> cmd_find args = true -> cmd_dupl args = true ->
  all args = false -> params_only args = false -> groups_only args = false ->
  main rsparam args =
    (if quiet args then []
     else [Print Yellow (encoding_report args);
           Print Blue ("source file: " ++ str (of_opt (src_file args)));
           Print Plain ""],
     Returns tt).
Proof.
  intros Hl Hf Hd Ha Hp Hg. unfold main. rewrite Hl, Hf, Hd, Ha, Hp, Hg.
  unfold report_globals. fold (encoding_report args).
  rewrite !report_eq, report_filenames_eq. unfold seq, ret.
  destruct (src_file args), (quiet args); reflexivity.
Qed.

Lemma find_dupl_without_kind_reports_nothing_witness :
  main sample_library
    (mkArgs false "utf-8" false false false "name" None None false false false
            false true true false false false (Some "dupl.txt") None None None None [])
  = ([Print Yellow "encoding=utf-8"; Print Blue "source file: dupl.txt"; Print Plain ""],
     Returns tt).
Proof.
  exact (find_dupl_without_kind_reports_nothing sample_library
           (mkArgs false "utf-8" false false false "name" None None false false false
                   false true true false false false (Some "dupl.txt") None None None None [])
           eq_refl eq_refl eq_refl eq_refl eq_refl eq_refl).
Defined.

(** ** An empty list of duplicates *)

Lemma param_dupl_loop_returns (args : Args) (dls : list (list Param.t)) :
  hd_error dls <> Some [] -> snd (param_dupl_loop args dls []) = Returns tt.
Proof.
  intros Hhd. destruct (String.eqb (sortby args) "group") eqn:Hsort.
  - destruct (param_dupl_loop_start_sorted args dls Hsort Hhd) as [tables [-> _]].
    reflexivity.
  - rewrite (param_dupl_loop_start args dls Hsort Hhd). reflexivity.
Qed.

(** X6.  The duplicate reports read the first row of the buffer,
    [dupldata[0][0]], for their banner.  When the library returns its
    lists of duplicates, [find_group_dupls] and [find_param_dupls] end in
    an [IndexError] exactly when the first list is empty, having printed
    no more than their title; otherwise they return, whatever the lists
    that follow and whatever [--sortby]. *)
Theorem dupl_reports_need_a_first_record (rsparam : Library) (args : Args)
        (src_file : value) (spentries : Entries (list Group.t) (list Param.t)) :
  find_duplicates rsparam src_file (byname args) = Returns spentries ->
  (hd_error (groups spentries) = Some [] ->
   find_group_dupls rsparam args src_file =
     (if quiet args then []
      else [Print Yellow (nl ++ "duplicate groups by " ++ duplparam args ++ ":")],
      Raises IndexError))
  /\ (hd_error (groups spentries) <> Some [] ->
      snd (find_group_dupls rsparam args src_file) = Returns tt)
  /\ (hd_error (params spentries) = Some [] ->
      find_param_dupls rsparam args src_file =
        (if quiet args then []
         else [Print Yellow (nl ++ "duplicate params by " ++ duplparam args ++ ":")],
         Raises IndexError))
  /\ (hd_error (params spentries) <> Some [] ->
      snd (find_param_dupls rsparam args src_file) = Returns tt).
Proof.
  intros Hlib. split; [|split; [|split]].
  - intros Hhd. unfold find_group_dupls. rewrite Hlib. unfold lift. rewrite seq_pure.
    destruct (groups spentries) as [|[|d ds] rest]; try discriminate.
    rewrite report_eq. unfold seq. cbn. rewrite app_nil_r. reflexivity.
  - intros Hhd. unfold find_group_dupls. rewrite Hlib. unfold lift. rewrite seq_pure.
    rewrite report_eq, group_dupl_loop_start by exact Hhd. reflexivity.
  - intros Hhd. unfold find_param_dupls. rewrite Hlib. unfold lift. rewrite seq_pure.
    destruct (params spentries) as [|[|d ds] rest]; try discriminate.
    rewrite report_eq. unfold seq. cbn. rewrite app_nil_r. reflexivity.
  - intros Hhd. unfold find_param_dupls. rewrite Hlib. unfold lift. rewrite seq_pure.
    rewrite report_eq. unfold seq. cbn [fst snd].
    rewrite (param_dupl_loop_returns args _ Hhd). reflexivity.
Qed.

Lemma dupl_reports_need_a_first_record_witness :
  find_param_dupls
    (mkLibrary (fun _ _ => Returns []) (fun _ _ => Returns [])
               (fun _ _ => Returns (mkEntries [] [[]; params two_params_file]))
               (fun _ _ _ => Returns (mkEntries [] []))
               (fun _ _ _ => Returns (mkEntries [] [], mkEntries [] [])))
    dupl_args (VStr "dupl.txt")
  = ([Print Yellow (nl ++ "duplicate params by guid:")], Raises IndexError).
Proof.
  exact (proj1 (proj2 (proj2 (dupl_reports_need_a_first_record
           (mkLibrary (fun _ _ => Returns []) (fun _ _ => Returns [])
                      (fun _ _ => Returns (mkEntries [] [[]; params two_params_file]))
                      (fun _ _ _ => Returns (mkEntries [] []))
                      (fun _ _ _ => Returns (mkEntries [] [], mkEntries [] [])))
           dupl_args (VStr "dupl.txt")
           (mkEntries [] [[]; params two_params_file]) eq_refl))) eq_refl).
Defined.

(** ** Sorting at every turn, or once *)

Section SortBy.
Context {A : Type}.
Variable ltb : A -> A -> bool.
Hypothesis ltb_asym : forall a b, ltb a b = true -> ltb b a = false.
Hypothesis ltb_trans : forall a b c, ltb a b = true -> ltb b c = true -> ltb a c = true.

(** Two items of different rank go in in either order. *)
Lemma insert_by_comm (h x : A) (u : list A) :
  ltb h x = true ->
  insert_by ltb h (insert_by ltb x u) = insert_by ltb x (insert_by ltb h u).
Proof.
  intros Hhx. induction u as [|y u IH]; simpl.
  - rewrite Hhx, (ltb_asym _ _ Hhx). reflexivity.
  - destruct (ltb y x) eqn:Eyx; destruct (ltb y h) eqn:Eyh; simpl;
      rewrite ?Eyx, ?Eyh, ?Hhx, ?(ltb_asym _ _ Hhx); simpl; rewrite ?Eyx, ?Eyh.
    + rewrite IH. reflexivity.
    + reflexivity.
    + rewrite (ltb_trans _ _ _ Eyh Hhx) in Eyx. discriminate.
    + reflexivity.
Qed.

(** Inserting a sorted list item by item is inserting the list it was
    sorted from. *)
Lemma insert_all_insert_by (x : A) (t s : list A) :
  fold_right (insert_by ltb) s (insert_by ltb x t)
  = insert_by ltb x (fold_right (insert_by ltb) s t).
Proof.
  induction t as [|h t IH]; simpl; [reflexivity|].
  destruct (ltb h x) eqn:E; simpl; [|reflexivity].
  rewrite IH. apply insert_by_comm. exact E.
Qed.

Lemma insert_all_sort_by (l s : list A) :
  fold_right (insert_by ltb) s (sort_by ltb l) = fold_right (insert_by ltb) s l.
Proof.
  induction l as [|x l IH]; simpl; [reflexivity|].
  fold (sort_by ltb l). rewrite insert_all_insert_by, IH. reflexivity.
Qed.

(** Sorting what was sorted, followed by more, is sorting the whole. *)
Lemma sort_by_app_sorted (l more : list A) :
  sort_by ltb (sort_by ltb l ++ more) = sort_by ltb (l ++ more).
Proof.
  unfold sort_by at 1 3. rewrite !fold_right_app. apply insert_all_sort_by.
Qed.

Lemma insert_by_length (x : A) (l : list A) :
  List.length (insert_by ltb x l) = S (List.length l).
Proof.
  induction l as [|h t IH]; simpl; [reflexivity|].
  destruct (ltb h x); simpl; [rewrite IH|]; reflexivity.
Qed.

Lemma sort_by_length (l : list A) : List.length (sort_by ltb l) = List.length l.
Proof.
  induction l as [|x l IH]; simpl; [reflexivity|].
  fold (sort_by ltb l). rewrite insert_by_length, IH. reflexivity.
Qed.
End SortBy.

(** [sorted] on keys that always compare is the insertion sort. *)
Lemma insert_is_insert_by {A K} (lt : K -> K -> option bool) (key : A -> K)
      (ltb : A -> A -> bool) (x : A) (s : list A) :
  (forall a b, lt (key a) (key b) = Some (ltb a b)) ->
  insert lt key x s = Returns (insert_by ltb x s).
Proof.
  intros Hlt. induction s as [|h t IH]; simpl; [reflexivity|].
  rewrite Hlt. destruct (ltb h x); [|reflexivity].
  rewrite IH. reflexivity.
Qed.

Lemma sorted_is_sort_by {A K} (lt : K -> K -> option bool) (key : A -> K)
      (ltb : A -> A -> bool) (l : list A) :
  (forall a b, lt (key a) (key b) = Some (ltb a b)) ->
  sorted lt key l = Returns (sort_by ltb l).
Proof.
  intros Hlt. induction l as [|x l IH]; [reflexivity|].
  cbn [sorted]. rewrite IH. cbn [bind].
  apply (insert_is_insert_by lt key ltb x (sort_by ltb l) Hlt).
Qed.

Lemma string_ltb_lt (a b : string) :
  String.ltb a b = true <-> OrderedTypeEx.String_as_OT.lt a b.
Proof.
  rewrite <- OrderedTypeEx.String_as_OT.cmp_lt.
  unfold String.ltb, OrderedTypeEx.String_as_OT.cmp.
  destruct (String.compare a b); split; congruence.
Qed.

Lemma string_ltb_trans (a b c : string) :
  String.ltb a b = true -> String.ltb b c = true -> String.ltb a c = true.
Proof.
  rewrite !string_ltb_lt. apply OrderedTypeEx.String_as_OT.lt_trans.
Qed.

Lemma sorted_by_group_is_sort_by (rows : list row5) :
  sorted value_lt group_sort_key rows = Returns (sort_by group_text_ltb rows).
Proof. apply sorted_is_sort_by. intros a b. reflexivity. Qed.

Lemma sort_rows_app_sorted (rows more : list row5) :
  sort_by group_text_ltb (sort_by group_text_ltb rows ++ more)
  = sort_by group_text_ltb (rows ++ more).
Proof.
  apply sort_by_app_sorted; unfold group_text_ltb; intros.
  - apply string_ltb_asym. assumption.
  - eapply string_ltb_trans; eassumption.
Qed.

(** The loop with [--sortby group], entered with the sorted rows of
    [seen]: every table is the sort of all the rows met so far. *)
Lemma param_dupl_loop_sorts_once (args : Args) (dls : list (list Param.t)) :
  String.eqb (sortby args) "group" = true ->
  forall seen : list row5,
    seen <> [] \/ hd_error dls <> Some [] ->
    exists tables,
      param_dupl_loop args dls (sort_by group_text_ltb seen)
      = (chained_dupl_report args
           (head_cell (sort_by group_text_ltb seen
                       ++ map (param_dupl_row args) (hd [] dls))%list)
           tables,
         Returns tt)
      /\ Forall2 (fun t acc =>
                    t = sort_by group_text_ltb (seen ++ map (param_dupl_row args) acc)%list)
                 tables (accumulate [] dls).
Proof.
  intros Hsort. induction dls as [|d rest IH]; intros seen Hne.
  - exists []. split; [reflexivity|constructor].
  - cbn [param_dupl_loop hd]. rewrite Hsort. fold group_sort_key.
    rewrite sorted_by_group_is_sort_by, sort_rows_app_sorted.
    assert (Hseen : (seen ++ map (param_dupl_row args) d)%list <> []).
    { destruct Hne as [Hs|Hd].
      - destruct seen; [contradiction Hs; reflexivity|discriminate].
      - destruct d; [contradiction Hd; reflexivity|]. destruct seen; discriminate. }
    assert (Hlen : List.length
                     (sort_by group_text_ltb seen ++ map (param_dupl_row args) d)%list
                   <> O).
    { rewrite length_app, sort_by_length, <- length_app.
      destruct (seen ++ map (param_dupl_row args) d)%list;
        [contradiction Hseen; reflexivity|discriminate]. }
    destruct (sort_by group_text_ltb seen ++ map (param_dupl_row args) d)%list
      as [|r0 buf] eqn:Ebuf; [contradiction Hlen; reflexivity|].
    cbn [first_item head_cell]. loop_turn.
    destruct (IH (seen ++ map (param_dupl_row args) d)%list (or_introl Hseen))
      as [tables [Hloop Hall]].
    rewrite Hloop. cbn [fst snd].
    exists (sort_by group_text_ltb (seen ++ map (param_dupl_row args) d)%list :: tables).
    split.
    + cbn [chained_dupl_report].
      replace (head_cell (sort_by group_text_ltb (seen ++ map (param_dupl_row args) d)
                          ++ map (param_dupl_row args) (hd [] rest))%list)
        with (head_cell (sort_by group_text_ltb (seen ++ map (param_dupl_row args) d)%list));
        [reflexivity|].
      assert (Hpos : List.length (sort_by group_text_ltb
                                    (seen ++ map (param_dupl_row args) d)%list) <> O).
      { rewrite sort_by_length.
        destruct (seen ++ map (param_dupl_row args) d)%list;
          [contradiction Hseen; reflexivity|discriminate]. }
      destruct (sort_by group_text_ltb (seen ++ map (param_dupl_row args) d)%list);
        [contradiction Hpos; reflexivity|reflexivity].
    + cbn [accumulate app]. constructor; [reflexivity|].
      rewrite accumulate_shift. apply Forall2_map_right.
      refine (Forall2_impl _ _ Hall). intros t acc ->.
      rewrite map_app, app_assoc. reflexivity.
Qed.

(** X7.  With [--sortby group] the buffer is sorted again at every turn,
    after the rows of the next list are added to the sorted rows kept
    from the turn before.  The table of the [k]-th list is nonetheless
    what sorting the rows of the lists 1 to [k] once gives: the stable
    sort by [str(group)] of those rows in their order of arrival. *)
Theorem dupl_tables_are_sorted_once (rsparam : Library) (args : Args) (src_file : value)
        (spentries : Entries (list Group.t) (list Param.t)) :
  sortby args = "group" ->
  find_duplicates rsparam src_file (byname args) = Returns spentries ->
  hd_error (params spentries) <> Some [] ->
  exists tables,
    find_param_dupls rsparam args src_file =
      ((if quiet args then []
        else [Print Yellow (nl ++ "duplicate params by " ++ duplparam args ++ ":")])
       ++ chained_dupl_report args (param_first_key args (params spentries)) tables,
       Returns tt)%list
    /\ Forall2 (fun t acc =>
                  sorted value_lt (fun x => VStr (str (item3_5 x)))
                         (map (param_dupl_row args) acc) = Returns t)
               tables (accumulate [] (params spentries))
    /\ (forall rows more kept,
           sorted value_lt (fun x => VStr (str (item3_5 x))) rows = Returns kept ->
           sorted value_lt (fun x => VStr (str (item3_5 x))) (kept ++ more)%list
           = sorted value_lt (fun x => VStr (str (item3_5 x))) (rows ++ more)%list).
Proof.
  intros Hsort Hlib Hhd. apply String.eqb_eq in Hsort.
  destruct (param_dupl_loop_sorts_once args (params spentries) Hsort [] (or_intror Hhd))
    as [tables [Hloop Hall]].
  exists tables. split; [|split].
  - unfold find_param_dupls. rewrite Hlib. unfold lift. rewrite seq_pure, report_eq.
    cbn [sort_by fold_right app] in Hloop. rewrite Hloop. unfold seq. cbn [fst snd].
    replace (head_cell (map (param_dupl_row args) (hd [] (params spentries))))
      with (param_first_key args (params spentries)); [reflexivity|].
    unfold param_first_key, first_record.
    destruct (params spentries) as [|[|d ds] rest]; reflexivity.
  - refine (Forall2_impl _ _ Hall). intros t acc ->. cbn [app].
    apply sorted_by_group_is_sort_by.
  - intros rows more kept Hkept. fold group_sort_key in *.
    rewrite sorted_by_group_is_sort_by in Hkept. injection Hkept as <-.
    rewrite !sorted_by_group_is_sort_by, sort_rows_app_sorted. reflexivity.
Qed.

Lemma dupl_tables_are_sorted_once_witness :
  exists tables,
    find_param_dupls sample_library dupl_by_group_args (VStr "dupl.txt") =
      (chained_dupl_report dupl_by_group_args
         (VStr "00000000-0000-0000-0000-00000000000a") tables,
       Returns tt)
    /\ Forall2 (fun t acc =>
                  sorted value_lt (fun x => VStr (str (item3_5 x)))
                         (map (param_dupl_row dupl_by_group_args) acc) = Returns t)
               tables
               (accumulate [] (map snd (params (Rsparam.find_duplicates duplicated_file false)))).
Proof.
  destruct (dupl_tables_are_sorted_once sample_library dupl_by_group_args (VStr "dupl.txt")
              (mkEntries
                 (map snd (groups (Rsparam.find_duplicates duplicated_file false)))
                 (map snd (params (Rsparam.find_duplicates duplicated_file false))))
              eq_refl eq_refl)
    as [tables [Hout [Hall _]]].
  - vm_compute. discriminate.
  - exists tables. split; [exact Hout|exact Hall].
Defined.

(** ** Quiet mode *)

Section OutputOf.
Variable P : event -> Prop.

Lemma out_seq {A B} (m : cli A) (k : A -> cli B) :
  Forall P (fst m) -> (forall a, Forall P (fst (k a))) -> Forall P (fst (seq m k)).
Proof.
  intros Hm Hk. unfold seq. destruct (snd m); cbn [fst]; [|exact Hm].
  apply Forall_app. split; [exact Hm|apply Hk].
Qed.

Lemma out_lift {A} (r : result exn A) : Forall P (fst (lift r)).
Proof. constructor. Qed.

Lemma out_ret {A} (a : A) : Forall P (fst (ret a)).
Proof. constructor. Qed.

Lemma out_emit (e : event) : P e -> Forall P (fst (emit e)).
Proof. intros He. repeat constructor. exact He. Qed.

Lemma out_first_item {A} (l : list A) : Forall P (fst (first_item l)).
Proof. destruct l; constructor. Qed.

Lemma out_when (b : bool) (m : cli unit) : Forall P (fst m) -> Forall P (fst (when b m)).
Proof. intros Hm. destruct b; [exact Hm|constructor]. Qed.

Lemma out_report_quiet (args : Args) (c : colour) (text : string) :
  quiet args = true -> Forall P (fst (report args c text)).
Proof. intros Hq. rewrite report_eq, Hq. constructor. Qed.

Lemma out_report_filenames_quiet (args : Args) (files : value) (title : string)
      (c : colour) :
  quiet args = true -> Forall P (fst (report_filenames args files title c)).
Proof. intros Hq. rewrite report_filenames_eq, Hq. constructor. Qed.
End OutputOf.

(** Going through a command, one step at a time. *)
Ltac quiet_steps Hq :=
  repeat first
    [ apply out_seq; [|intros]
    | apply out_lift
    | apply out_ret
    | apply out_first_item
    | apply out_report_quiet; exact Hq
    | apply out_report_filenames_quiet; exact Hq
    | apply out_emit; exact I
    | apply out_emit; split; [reflexivity|eexists; reflexivity]
    | apply out_when ].

Lemma quiet_group_dupl_loop (args : Args) (dls : list (list Group.t)) (buf : list row3) :
  Forall (printed_not_reported args) (fst (group_dupl_loop args dls buf)).
Proof.
  revert buf. induction dls as [|d rest IH]; intros buf; [constructor|].
  cbn [group_dupl_loop]. quiet_steps I. apply IH.
Qed.

Lemma quiet_param_dupl_loop (args : Args) (dls : list (list Param.t)) (buf : list row5) :
  Forall (printed_not_reported args) (fst (param_dupl_loop args dls buf)).
Proof.
  revert buf. induction dls as [|d rest IH]; intros buf; [constructor|].
  cbn [param_dupl_loop]. quiet_steps I.
  - destruct (String.eqb (sortby args) "group"); quiet_steps I.
  - apply IH.
Qed.

(** Going through the branches as well. *)
Ltac quiet_run Hq :=
  repeat first
    [ progress quiet_steps Hq
    | apply quiet_group_dupl_loop
    | apply quiet_param_dupl_loop
    | match goal with
      | |- Forall _ (fst (if ?b then _ else _)) => destruct b
      | |- Forall _ (fst (match ?x with _ => _ end)) => destruct x
      end ].

(** X8.  In quiet mode nothing that goes through [report] is printed,
    whatever the command and however it ends: the output of a run holds
    only tables and the banners of the duplicate keys, which are printed
    with [print]. *)
Theorem quiet_run_prints_tables_and_banners (rsparam : Library) (args : Args) :
  quiet args = true ->
  Forall (printed_not_reported args) (fst (main rsparam args)).
Proof.
  intros Hq. unfold main. quiet_run Hq.
Qed.

Lemma quiet_run_prints_tables_and_banners_witness :
  Forall (printed_not_reported dupl_by_group_args)
         (fst (main sample_library dupl_by_group_args)).
Proof.
  exact (quiet_run_prints_tables_and_banners sample_library dupl_by_group_args eq_refl).
Defined.

(** ** The exceptions of a run *)

Section RaisesOnly.
Variable P : exn -> Prop.

Lemma raises_seq {A B} (m : cli A) (k : A -> cli B) :
  raises_only P m -> (forall a, raises_only P (k a)) -> raises_only P (seq m k).
Proof.
  intros Hm Hk e. unfold seq. destruct (snd m) as [a|e'] eqn:E; cbn [snd].
  - apply Hk.
  - intros H. apply Hm. congruence.
Qed.

Lemma raises_ret {A} (a : A) : raises_only P (ret a).
Proof. intros e H. discriminate H. Qed.

Lemma raises_emit (ev : event) : raises_only P (emit ev).
Proof. intros e H. discriminate H. Qed.

Lemma raises_report (args : Args) (c : colour) (text : string) :
  raises_only P (report args c text).
Proof. intros e H. rewrite report_eq in H. discriminate H. Qed.

Lemma raises_report_filenames (args : Args) (files : value) (title : string) (c : colour) :
  raises_only P (report_filenames args files title c).
Proof. intros e H. rewrite report_filenames_eq in H. discriminate H. Qed.

Lemma raises_when (b : bool) (m : cli unit) : raises_only P m -> raises_only P (when b m).
Proof. intros Hm. destruct b; [exact Hm|apply raises_ret]. Qed.

Lemma raises_lift {A} (r : result exn A) :
  (forall e, r = Raises e -> P e) -> raises_only P (lift r).
Proof. intros Hr e H. apply Hr. exact H. Qed.

Lemma raises_first_item {A} (l : list A) : P IndexError -> raises_only P (first_item l).
Proof. intros Hp e H. destruct l; [|discriminate H]. injection H as <-. exact Hp. Qed.
End RaisesOnly.

Lemma raises_weaken {A} (P Q : exn -> Prop) (m : cli A) :
  (forall e, P e -> Q e) -> raises_only P m -> raises_only Q m.
Proof. intros HPQ Hm e H. apply HPQ, Hm, H. Qed.

Ltac raise_steps :=
  repeat first
    [ apply raises_seq; [|intros]
    | apply raises_ret
    | apply raises_emit
    | apply raises_report
    | apply raises_report_filenames
    | apply raises_when ].

Lemma merge_of_two (dest_file source_files : value) :
  merge [dest_file; source_files] [] = Raises NotImplementedError.
Proof. reflexivity. Qed.

Lemma sort_by_name_keyword (source_file flag : value) :
  sort [source_file] [("byname", flag)] = Raises (TypeError (UnexpectedKeyword "byname")).
Proof. reflexivity. Qed.

(** What a step that can raise raises. *)
Ltac raise_leaf :=
  first
    [ apply raises_first_item; unfold expected_exception; tauto
    | apply raises_lift;
      let e := fresh "e" in
      let H := fresh "H" in
      intros e H;
      first
        [ rewrite rows_sort_in_place in H; discriminate H
        | fold group_sort_key in H; rewrite sorted_by_group_is_sort_by in H; discriminate H
        | rewrite merge_of_two in H; injection H as <-; unfold expected_exception; tauto
        | rewrite sort_by_name_keyword in H; injection H as <-;
          unfold expected_exception; tauto
        | unfold expected_exception, library_raises; eauto 12 ] ].

Lemma raises_group_dupl_loop (rsparam : Library) (args : Args)
      (dls : list (list Group.t)) (buf : list row3) :
  raises_only (expected_exception rsparam) (group_dupl_loop args dls buf).
Proof.
  revert buf. induction dls as [|d rest IH]; intros buf; [apply raises_ret|].
  cbn [group_dupl_loop]. raise_steps; [raise_leaf|apply IH].
Qed.

Lemma raises_param_dupl_loop (rsparam : Library) (args : Args)
      (dls : list (list Param.t)) (buf : list row5) :
  raises_only (expected_exception rsparam) (param_dupl_loop args dls buf).
Proof.
  revert buf. induction dls as [|d rest IH]; intros buf; [apply raises_ret|].
  cbn [param_dupl_loop]. raise_steps; [raise_leaf| |apply IH].
  destruct (String.eqb (sortby args) "group"); raise_steps. raise_leaf.
Qed.

Ltac raise_run :=
  repeat first
    [ progress raise_steps
    | apply raises_group_dupl_loop
    | apply raises_param_dupl_loop
    | match goal with
      | |- raises_only _ (if ?b then _ else _) => destruct b
      | |- raises_only _ (match ?x with _ => _ end) => destruct x
      end
    | raise_leaf ].

(** X9.  A run ends in no other exception than one raised by a call of
    the library, the [TypeError] of the call of [sort], the
    [NotImplementedError] of [merge], or the [IndexError] of an empty
    list of duplicates; sorting the rows never raises.  The list command,
    the search for a pattern and the comparison end only in exceptions
    of the library, so they return whenever the library does. *)
Theorem run_ends_in_expected_exceptions (rsparam : Library) (args : Args) :
  (forall e, snd (main rsparam args) = Raises e -> expected_exception rsparam e)
  /\ (cmd_dupl args = false -> cmd_merge args = false -> cmd_sort args = false ->
      forall e, snd (main rsparam args) = Raises e -> library_raises rsparam e)
  /\ (cmd_dupl args = false -> cmd_merge args = false -> cmd_sort args = false ->
      (forall e, ~ library_raises rsparam e) ->
      snd (main rsparam args) = Returns tt).
Proof.
  assert (Hall : raises_only (expected_exception rsparam) (main rsparam args)).
  { unfold main. raise_run. }
  assert (Hlib : cmd_dupl args = false -> cmd_merge args = false -> cmd_sort args = false ->
                 raises_only (library_raises rsparam) (main rsparam args)).
  { intros Hd Hm Hs. unfold main. rewrite Hd, Hm, Hs. raise_run. }
  split; [exact Hall|]. split; [exact Hlib|].
  intros Hd Hm Hs Hnone. destruct (snd (main rsparam args)) as [[]|e] eqn:E; [reflexivity|].
  exfalso. exact (Hnone e (Hlib Hd Hm Hs e E)).
Qed.

Lemma run_ends_in_expected_exceptions_witness :
  snd (main (mkLibrary (fun _ _ => Returns (params two_params_file))
                       (fun _ _ => Returns (groups two_params_file))
                       (fun _ _ => Returns (mkEntries [] []))
                       (fun _ _ _ => Returns two_params_file)
                       (fun _ _ _ => Returns (two_params_file, two_params_file)))
            list_by_group_args)
  = Returns tt.
Proof.
  refine (proj2 (proj2 (run_ends_in_expected_exceptions _ list_by_group_args))
                eq_refl eq_refl eq_refl _).
  intros e [H|[H|[H|[H|H]]]];
    repeat match goal with H : exists _, _ |- _ => destruct H end; discriminate.
Defined.

(** ** The list command *)

(** X10.  When the library returns the groups and the parameters of the
    file, a run of the list command prints the encoding and the file
    name, then the groups alone with [--groups], the parameters alone
    with [--params], and the groups followed by the parameters with
    neither flag or with both; [--all] changes nothing, [--filter]
    reaches the parameters only, and the run returns after a closing
    empty line. *)
Theorem list_command_output (rsparam : Library) (args : Args)
        (gs : list Group.t) (ps : list Param.t) :
  cmd_list args = true ->
  get_paramgroups rsparam (of_opt (src_file args)) (encode args) = Returns gs ->
  get_params rsparam (of_opt (src_file args)) (filter args) = Returns ps ->
  main rsparam args =
    ((preamble args [Print Blue ("source file: " ++ str (of_opt (src_file args)))]
      ++ (if groups_only args && negb (params_only args) then groups_listing args gs
          else if params_only args && negb (groups_only args) then params_listing args ps
          else groups_listing args gs ++ params_listing args ps)
      ++ (if quiet args then [] else [Print Plain ""]))%list,
     Returns tt).
Proof.
  intros Hl Hgs Hps. unfold main. rewrite Hl.
  unfold report_globals, list_all. fold (encoding_report args).
  rewrite (list_groups_of rsparam args _ None gs Hgs).
  rewrite (list_params_of rsparam args _ None ps Hps).
  rewrite !report_eq, report_filenames_eq. unfold preamble.
  destruct (groups_only args && negb (params_only args));
    [|destruct (params_only args && negb (groups_only args))];
    unfold seq; destruct (src_file args); cbn [fst snd file_names of_opt map];
    destruct (quiet args); cbn [app]; rewrite <- ?app_assoc, ?app_nil_r; reflexivity.
Qed.

Lemma list_command_output_witness :
  main sample_library list_by_group_args =
    ([Print Yellow "encoding=utf-8"; Print Blue "source file: two.txt";
      PrintTable
        [[VStr "00000000-0000-0000-0000-00000000000a"; VStr "Width"; VStr "LENGTH";
          VInt 1; VInt 5];
         [VStr "00000000-0000-0000-0000-00000000000b"; VStr "Height"; VStr "LENGTH";
          VInt 2; VInt 6]]
        params_headers;
      Print Plain "Total of 2 items.";
      Print Plain ""],
     Returns tt).
Proof.
  exact (list_command_output sample_library list_by_group_args
           (groups two_params_file) (params two_params_file) eq_refl eq_refl eq_refl).
Defined.
